(** * fixofx: the IIF parser and the IIF converter

    A shallow embedding of [fixofx/ofxtools/iif_parser.py] and
    [fixofx/ofxtools/iif_converter.py].

    - Python [str] values are [string]s: the input file is opened with
      [encoding="latin-1"], so every character is one of the 256 values of
      [ascii].
    - A transaction is a Python [dict] from field names to strings, modelled
      as [gmap string string]; absence of a key is meaningful.
    - Exceptions are values of [exn]; a computation that can raise returns a
      [result].  The cleanup methods mutate the transaction they are given,
      so they are state transformers over the transaction that keep the
      partially rewritten transaction when they raise.
    - The transactions are objects: the list of the caller and the buckets
      of [txns_by_date] hold the same dicts, and what is written through one
      is seen through the other.  The second pass and the renderer therefore
      work on a [heap] of dicts and on lists of addresses.
    - [dateutil], [decimal] and the clock are outside the repository: the
      converter is parametrised by an [Externals] instance. *)

From Stdlib Require Import ZArith Ascii String List Lia Bool DecimalString DecimalNat Sorted.
From stdpp Require Import base option list gmap strings.

Open Scope string_scope.
Open Scope list_scope.

(** ** Exceptions *)

Inductive exn : Type :=
  | ValueError
  | OverflowError
  | IndexError
  | KeyError
  | AttributeError
  | ParseException.

Inductive result (A : Type) : Type :=
  | Ok (a : A)
  | Raise (e : exn).
Arguments Ok {A} a.
Arguments Raise {A} e.

#[global] Instance result_ret : MRet result := fun _ a => Ok a.
#[global] Instance result_bind : MBind result := fun _ _ k r =>
  match r with
  | Ok a => k a
  | Raise e => Raise e
  end.

(** ** Python string primitives *)

Module Py.

Definition code (c : ascii) : nat := nat_of_ascii c.

Definition between (lo hi : nat) (c : ascii) : bool :=
  (lo <=? code c)%nat && (code c <=? hi)%nat.

(** [str.isspace] on one character of the Latin-1 range. *)
Definition isspace (c : ascii) : bool :=
  between 9 13 c || between 28 32 c || (code c =? 133)%nat || (code c =? 160)%nat.

(** [\d] of the [re] module: among the first 256 code points only the ASCII
    digits are decimal digits. *)
Definition isdigit (c : ascii) : bool := between 48 57 c.

(** [str.isalpha] on one character of the Latin-1 range. *)
Definition isalpha_char (c : ascii) : bool :=
  between 65 90 c || between 97 122 c
  || (code c =? 170)%nat || (code c =? 181)%nat || (code c =? 186)%nat
  || between 192 214 c || between 216 246 c || between 248 255 c.

Fixpoint all_chars (p : ascii -> bool) (s : string) : bool :=
  match s with
  | EmptyString => true
  | String c r => p c && all_chars p r
  end.

Fixpoint any_char (p : ascii -> bool) (s : string) : bool :=
  match s with
  | EmptyString => false
  | String c r => p c || any_char p r
  end.

(** [s.isalpha()]: every character alphabetic and at least one character. *)
Definition isalpha (s : string) : bool :=
  match s with
  | EmptyString => false
  | _ => all_chars isalpha_char s
  end.

Fixpoint lstrip (s : string) : string :=
  match s with
  | String c r => if isspace c then lstrip r else s
  | EmptyString => EmptyString
  end.

Fixpoint rstrip (s : string) : string :=
  match s with
  | EmptyString => EmptyString
  | String c r =>
      match rstrip r with
      | EmptyString => if isspace c then EmptyString else String c EmptyString
      | r' => String c r'
      end
  end.

(** [s.strip()] *)
Definition strip (s : string) : string := rstrip (lstrip s).

(** [s.upper()], character by character.  The sharp s becomes two letters;
    the two Latin-1 letters whose capital lies beyond code point 255 (micro
    sign, y with diaeresis) are left as they are: the converter only ever
    compares upper-cased text with the ASCII keys of [txn_types], and both
    the real capital and the unchanged character differ from every ASCII
    character. *)
Definition upper_char (c : ascii) : string :=
  if between 97 122 c then String (ascii_of_nat (code c - 32)) EmptyString
  else if (code c =? 223)%nat then "SS"
  else if between 224 254 c && negb (code c =? 247)%nat
       then String (ascii_of_nat (code c - 32)) EmptyString
  else String c EmptyString.

Fixpoint upper (s : string) : string :=
  match s with
  | EmptyString => EmptyString
  | String c r => upper_char c +:+ upper r
  end.

(** [s.startswith(p)] *)
Fixpoint startswith (p s : string) : bool :=
  match p, s with
  | EmptyString, _ => true
  | String a p', String b s' => Ascii.eqb a b && startswith p' s'
  | String _ _, EmptyString => false
  end.

(** [p in s] for strings: [p] occurs in [s] as a substring. *)
Fixpoint contains (p s : string) : bool :=
  startswith p s ||
  match s with
  | EmptyString => false
  | String _ s' => contains p s'
  end.

(** [s.replace(c, '', 1)] for a one-character [c]. *)
Fixpoint remove_first (c : ascii) (s : string) : string :=
  match s with
  | EmptyString => EmptyString
  | String a r => if Ascii.eqb a c then r else String a (remove_first c r)
  end.

(** [s[-1]]: raises [IndexError] on the empty string. *)
Fixpoint last_char (s : string) : option ascii :=
  match s with
  | EmptyString => None
  | String c EmptyString => Some c
  | String _ r => last_char r
  end.

(** [s[:-1]] *)
Fixpoint drop_last (s : string) : string :=
  match s with
  | EmptyString => EmptyString
  | String _ EmptyString => EmptyString
  | String c r => String c (drop_last r)
  end.

(** [s[a:b]] for [0 <= a], [0 <= b]. *)
Definition slice (a b : nat) (s : string) : string := substring a (b - a) s.

(** [s[a:]] *)
Fixpoint slice_from (a : nat) (s : string) : string :=
  match a, s with
  | O, _ => s
  | S a', String _ r => slice_from a' r
  | S _, EmptyString => EmptyString
  end.

(** The leading run of decimal digits: [s[:m.start()]] for
    [m = re.search("\D", s)] when there is a match. *)
Fixpoint leading_digits (s : string) : string :=
  match s with
  | String c r => if isdigit c then String c (leading_digits r) else EmptyString
  | EmptyString => EmptyString
  end.

(** [re.search("\D", s)] finds something. *)
Definition search_nondigit (s : string) : bool := any_char (fun c => negb (isdigit c)) s.

(** [re.compile("\d+").search(s)] finds something. *)
Definition search_digits (s : string) : bool := any_char isdigit s.

Definition digit_val (c : ascii) : Z := Z.of_nat (code c - 48).

(** Digits with single underscores between them, as [int()] accepts.
    [acc] is the value so far, [prev_digit] tells whether the previous
    character was a digit. *)
Fixpoint int_digits (acc : Z) (prev_digit : bool) (s : string) : option Z :=
  match s with
  | EmptyString => if prev_digit then Some acc else None
  | String c r =>
      if isdigit c then int_digits (acc * 10 + digit_val c) true r
      else if Ascii.eqb c "_" then
        if prev_digit then int_digits acc false r else None
      else None
  end.

(** [int(s)] for a string: surrounding whitespace is ignored, one sign is
    allowed; [None] stands for [ValueError]. *)
Definition int (s : string) : option Z :=
  match strip s with
  | String "-" r => option_map Z.opp (int_digits 0 false r)
  | String "+" r => int_digits 0 false r
  | r => int_digits 0 false r
  end.

End Py.

(** ** Transactions and the converter object *)

(** A transaction: the [dict] built by [IifParser.get_txn_list]. *)
Abbreviation txn := (gmap string string).

(** [txn.get(key, dflt)] *)
Definition get (t : txn) (key dflt : string) : string := default dflt (t !! key).

(** The dicts live in a store.  [get_txn_list] makes a new dict for every
    record; from then on the list of the caller, the loops and the buckets of
    [txns_by_date] hold the addresses of these dicts, and the same dict may be
    held more than once.  An address that holds no dict does not occur in a
    state of the program; the store reads as the empty dict there. *)
Abbreviation ref := nat.
Abbreviation heap := (gmap nat txn).

Definition deref (h : heap) (r : ref) : txn := default ∅ (h !! r).

(** Methods that mutate the transaction they are given: the transaction is
    threaded through, and is kept when the method raises. *)
Definition M (A : Type) : Type := txn -> result A * txn.

#[global] Instance M_ret : MRet M := fun _ a t => (Ok a, t).
#[global] Instance M_bind : MBind M := fun _ _ k m t =>
  match m t with
  | (Ok a, t') => k a t'
  | (Raise e, t') => (Raise e, t')
  end.

#[global] Instance M_fmap : FMap M := fun _ _ f m t =>
  match m t with
  | (Ok a, t') => (Ok (f a), t')
  | (Raise e, t') => (Raise e, t')
  end.

Definition raise {A} (e : exn) : M A := fun t => (Raise e, t).
Definition read (key dflt : string) : M string := fun t => (Ok (get t key dflt), t).
Definition has (key : string) : M bool := fun t => (Ok (bool_decide (is_Some (t !! key))), t).
Definition store (key value : string) : M unit := fun t => (Ok tt, <[key := value]> t).
(** [del txn[key]] *)
Definition del (key : string) : M unit := fun t =>
  match t !! key with
  | Some _ => (Ok tt, delete key t)
  | None => (Raise KeyError, t)
  end.
(** [txn[key] += suffix] *)
Definition append (key suffix : string) : M unit := fun t =>
  match t !! key with
  | Some v => (Ok tt, <[key := v +:+ suffix]> t)
  | None => (Raise KeyError, t)
  end.
Definition lift {A} (r : result A) : M A := fun t => (r, t).
Definition skip : M unit := mret tt.

(** What the converter needs from outside the repository. *)
Record datetime : Type := { year : nat; month : nat; day : nat }.

Class Externals : Type := {
  (** [dateutil.parser.parse(s, dayfirst=b)]: the date, or the exception the
      library raises.  That is [ValueError] for a string it cannot read as a
      date and [OverflowError] for a number beyond the integers of the
      platform; the converter treats the two differently. *)
  dateutil_parse : string -> bool -> result datetime;
  (** [str(Decimal(s).quantize(Decimal('.01')))]; [None] when [Decimal(s)] or
      [quantize] raises. *)
  decimal_quantize : string -> option string;
  (** [strftime("%Y%m%d", localtime())] *)
  today : string
}.

(** [n] in decimal, padded with zeros on the left to [width] characters. *)
Definition zfill (width n : nat) : string :=
  let s := NilEmpty.string_of_uint (Nat.to_uint n) in
  let s := match s with EmptyString => "0" | _ => s end in
  string_of_list_ascii (repeat "0"%char (width - String.length s)) +:+ s.

(** ["%s" % n] for an integer that is not negative. *)
Definition str_of_nat (n : nat) : string := NilEmpty.string_of_uint (Nat.to_uint n).

(** [d.strftime("%Y%m%d")]: month and day take two digits each; the year is
    printed as the C library prints it, which on Linux is without padding, so
    that a year below 1000 gives fewer than eight characters. *)
Definition strftime_Ymd (d : datetime) : string :=
  str_of_nat (year d) +:+ zfill 2 (month d) +:+ zfill 2 (day d).

(** The attributes of an [IifConverter] that the modelled methods read or
    write.  [start_date] and [end_date] do not exist until
    [_clean_txn_list] assigns them. *)
Record IifConverter : Type := {
  fid : string;
  org : string;
  bankid : string;
  accttype : string;
  acctid : string;
  balance : string;
  curdef : option string;
  lang : string;
  dayfirst : bool;
  txns_by_date : gmap string (list ref);
  start_date : option string;
  end_date : option string
}.

Definition set_dayfirst (b : bool) (self : IifConverter) : IifConverter :=
  {| fid := fid self; org := org self; bankid := bankid self;
     accttype := accttype self; acctid := acctid self; balance := balance self;
     curdef := curdef self; lang := lang self; dayfirst := b;
     txns_by_date := txns_by_date self;
     start_date := start_date self; end_date := end_date self |}.

Definition set_curdef (c : option string) (self : IifConverter) : IifConverter :=
  {| fid := fid self; org := org self; bankid := bankid self;
     accttype := accttype self; acctid := acctid self; balance := balance self;
     curdef := c; lang := lang self; dayfirst := dayfirst self;
     txns_by_date := txns_by_date self;
     start_date := start_date self; end_date := end_date self |}.

Definition set_index (ix : gmap string (list ref)) (sd ed : option string)
    (self : IifConverter) : IifConverter :=
  {| fid := fid self; org := org self; bankid := bankid self;
     accttype := accttype self; acctid := acctid self; balance := balance self;
     curdef := curdef self; lang := lang self; dayfirst := dayfirst self;
     txns_by_date := ix; start_date := sd; end_date := ed |}.

(** [IifConverter.txn_types], in the order the dictionary literal lists it. *)
Definition txn_types : list (string * string) :=
  [ ("ACH", "ACH"); ("CHECK CARD", "POS"); ("CREDIT", "CREDIT");
    ("DBT", "DEBIT"); ("DEBIT", "DEBIT"); ("INT", "INT"); ("DIV", "DIV");
    ("FEE", "FEE"); ("SRVCHG", "SRVCHG"); ("DEP", "DEP"); ("DEPOSIT", "DEP");
    ("ATM", "ATM"); ("POS", "POS"); ("XFER", "XFER"); ("CHECK", "CHECK");
    ("PAYMENT", "PAYMENT"); ("CASH", "CASH"); ("DIRECTDEP", "DIRECTDEP");
    ("DIRECTDEBIT", "DIRECTDEBIT"); ("REPEATPMT", "REPEATPMT");
    ("OTHER", "OTHER") ].

(** [key in IifConverter.txn_types] *)
Definition in_txn_types (key : string) : bool :=
  existsb (fun kv => String.eqb (fst kv) key) txn_types.

(** [IifConverter.txn_types[key]] *)
Definition txn_types_value (key : string) : option string :=
  snd <$> List.find (fun kv => String.eqb (fst kv) key) txn_types.

(** ** Date methods *)

Section Converter.
Context `{Ext : Externals}.

(** What [_parse_date] returns: the string ["UNKNOWN"] or a [datetime]. *)
Inductive parsed : Type :=
  | Unknown
  | Parsed (d : datetime).

(** The second call of the library, inside [try: ... except: pass]: the
    bare [except] takes whatever is raised there, and the method goes on to
    its final [raise ValueError]. *)
Definition parse_or_ValueError (s : string) (dayfirst : bool) : result parsed :=
  match dateutil_parse s dayfirst with
  | Ok d => Ok (Parsed d)
  | Raise _ => Raise ValueError
  end.

(** The first call of the library is guarded by [except ValueError] only:
    any other exception of the library leaves the method. *)
Definition _parse_date (txn_date : string) (dayfirst : bool) : result parsed :=
  if negb (String.eqb txn_date "UNKNOWN") then
    if negb (Py.isalpha txn_date) then
      match dateutil_parse txn_date dayfirst with
      | Ok d => Ok (Parsed d)
      | Raise ValueError =>
          (* except ValueError: *)
          if (String.length txn_date =? 8)%nat then
            match Py.int txn_date with
            | Some _ =>
                let slashified :=
                  Py.slice 0 2 txn_date +:+ "/" +:+ Py.slice 2 4 txn_date +:+ "/"
                  +:+ Py.slice_from 4 txn_date in
                parse_or_ValueError slashified dayfirst
            | None => Raise ValueError
            end
          else Raise ValueError
      | Raise e => Raise e
      end
    else Raise ValueError
  else Ok Unknown.

Definition _check_date_format (self : IifConverter) (parsed_date : parsed)
    (txn_date : string) : result IifConverter :=
  if Py.search_nondigit txn_date then
    match Py.int (Py.leading_digits txn_date) with
    | None => Raise ValueError
    | Some maybe_day =>
        match parsed_date with
        | Parsed _ =>
            if ((13 <=? maybe_day) && (maybe_day <=? 31))%Z
            then Ok (set_dayfirst true self) else Ok self
        | Unknown => Ok self
        end
    end
  else Ok self.

(** One iteration of the loop of [_guess_formats]. *)
Definition _guess_formats_step (self : IifConverter) (t : txn) : result IifConverter :=
  let txn_date := get t "Date" "UNKNOWN" in
  let txn_currency := get t "Currency" "UNKNOWN" in
  parsed_date ← _parse_date txn_date false;
  self ← _check_date_format self parsed_date txn_date;
  if bool_decide (curdef self = None) && String.eqb txn_currency "^EUR"
  then Ok (set_curdef (Some "EUR") self) else Ok self.

Fixpoint _guess_formats (self : IifConverter) (txn_list : list txn) : result IifConverter :=
  match txn_list with
  | [] => Ok self
  | t :: rest =>
      self ← _guess_formats_step self t;
      _guess_formats self rest
  end.

(** ** Cleanup methods *)

Definition _txn_sign (txn_amount : string) : string :=
  if Py.startswith "-" txn_amount then "debit" else "credit".

Definition _clean_txn_date (self : IifConverter) : M unit :=
  txn_date ← Py.strip <$> read "Date" "UNKNOWN";
  if negb (String.eqb txn_date "UNKNOWN") then
    parsed_date ← lift (_parse_date txn_date (dayfirst self));
    match parsed_date with
    | Parsed d => store "Date" (strftime_Ymd d)
    | Unknown => raise AttributeError
    end
  else store "Date" "UNKNOWN".

Definition _clean_txn_amount : M unit :=
  txn_amount ← read "Amount" "00.00";
  txn_amount2 ← read "Amount2" "00.00";
  if String.eqb txn_amount "-" || String.eqb txn_amount " " then
    raise ValueError
  else
    let txn_amount := if String.eqb txn_amount "00.00" then txn_amount2 else txn_amount in
    let txn_amount := Py.strip txn_amount in
    let txn_amount := Py.remove_first "$" txn_amount in
    match Py.last_char txn_amount with
    | None => raise IndexError
    | Some c =>
        let txn_amount :=
          if Ascii.eqb c "-" then "-" +:+ Py.drop_last txn_amount else txn_amount in
        let txn_amount := default txn_amount (decimal_quantize txn_amount) in
        store "Amount" txn_amount
    end.

Definition _clean_txn_number (self : IifConverter) : M unit :=
  txn_number ← Py.strip <$> read "Number" "UNKNOWN";
  if String.eqb txn_number "N/A" then del "Number"
  else if Py.startswith "XXXX-XXXX-XXXX" txn_number then del "Number"
  else if negb (String.eqb txn_number "UNKNOWN") && String.eqb (accttype self) "CREDITCARD"
  then del "Number"
  else if String.eqb txn_number "0000000000" && negb (String.eqb (accttype self) "CREDITCARD")
  then del "Number"
  else if negb (String.eqb txn_number "UNKNOWN") && Py.search_digits txn_number
  then store "Type" "CHECK"
  else skip.

Definition _clean_txn_type : M unit :=
  txn_type ← read "Type" "UNKNOWN";
  if in_txn_types (Py.upper txn_type) then store "Type" (Py.upper txn_type)
  else
    txn_memo ← read "Memo" "UNKNOWN";
    txn_category ← read "Category" "UNKNOWN";
    match List.find (fun typestr => Py.contains typestr (Py.upper txn_category)
                                    || Py.contains typestr (Py.upper txn_memo))
                    (map fst txn_types) with
    | Some typestr => store "Type" typestr
    | None => skip
    end.

Definition _clean_txn_payee (self : IifConverter) : M unit :=
  txn_payee ← read "Payee" "UNKNOWN";
  txn_memo ← read "Memo" "UNKNOWN";
  txn_category ← read "Category" "UNKNOWN";
  txn_number ← read "Number" "UNKNOWN";
  txn_type ← read "Type" "UNKNOWN";
  txn_amount ← read "Amount" "UNKNOWN";
  let txn_sign := _txn_sign txn_amount in
  filled ← (if String.eqb txn_payee "UNKNOWN" then
     if negb (String.eqb txn_number "UNKNOWN")
        && (String.eqb (accttype self) "CHECKING" || String.eqb (accttype self) "SAVINGS")
     then store "Payee" ("Check #" +:+ txn_number);; store "Type" "CHECK"
     else if String.eqb txn_type "INT" && String.eqb txn_sign "debit"
     then store "Payee" "Interest paid"
     else if String.eqb txn_type "INT" && String.eqb txn_sign "credit"
     then store "Payee" "Interest earned"
     else if String.eqb txn_type "ATM" && String.eqb txn_sign "debit"
     then store "Payee" "ATM Withdrawal"
     else if String.eqb txn_type "ATM" && String.eqb txn_sign "credit"
     then store "Payee" "ATM Deposit"
     else if String.eqb txn_type "POS" && String.eqb txn_sign "debit"
     then store "Payee" "Point of Sale Payment"
     else if String.eqb txn_type "POS" && String.eqb txn_sign "credit"
     then store "Payee" "Point of Sale Credit"
     else if negb (String.eqb txn_memo "UNKNOWN")
     then store "Payee" txn_memo
     else if negb (String.eqb txn_category "UNKNOWN")
     then store "Payee" txn_category
     else if String.eqb txn_type "UNKNOWN" && String.eqb txn_sign "debit"
     then store "Payee" "Other Debit";; store "Type" "DEBIT"
     else if String.eqb txn_type "UNKNOWN" && String.eqb txn_sign "credit"
     then store "Payee" "Other Credit";; store "Type" "CREDIT"
     else skip
   else skip);
  has_type ← has "Type";
  typed ← (if negb has_type && String.eqb txn_sign "debit" then store "Type" "DEBIT"
   else if negb has_type && String.eqb txn_sign "credit" then store "Type" "CREDIT"
   else skip);
  if negb (String.eqb txn_memo "UNKNOWN")
  then append "Payee" (" (" +:+ txn_memo +:+ ")")
  else skip.

Definition _clean_txn (self : IifConverter) : M unit :=
  _clean_txn_date self;;
  _clean_txn_amount;;
  _clean_txn_number self;;
  _clean_txn_type;;
  _clean_txn_payee self.

(** [date_list.sort()]: strings compare by code point. *)
Fixpoint insert_sorted (s : string) (l : list string) : list string :=
  match l with
  | [] => [s]
  | x :: r => if String.leb s x then s :: l else x :: insert_sorted s r
  end.

Definition sort_strings (l : list string) : list string :=
  foldr insert_sorted [] l.

(** The [for] loop of [_clean_txn_list]: [ix] is [self.txns_by_date], [h] the
    store, [txn_list] the addresses of the dicts in the list of the caller.
    [_clean_txn] rewrites the dict at its address, also when it raises, and the
    bucket gets the address of that same dict. *)
Fixpoint _clean_txn_loop (self : IifConverter) (ix : gmap string (list ref)) (h : heap)
    (txn_list : list ref) : result (gmap string (list ref) * heap) :=
  match txn_list with
  | [] => Ok (ix, h)
  | r :: rest =>
      match _clean_txn self (deref h r) with
      | (Ok _, t') =>
          match t' !! "Date" with
          | Some txn_date =>
              let txn_date_list := default [] (ix !! txn_date) in
              _clean_txn_loop self (<[txn_date := txn_date_list ++ [r]]> ix)
                (<[r := t']> h) rest
          | None => Raise KeyError
          end
      | (Raise ValueError, t') => _clean_txn_loop self ix (<[r := t']> h) rest
      | (Raise e, _) => Raise e
      end
  end.

Definition _clean_txn_list (self : IifConverter) (h : heap) (txn_list : list ref)
    : result (IifConverter * heap) :=
  '(ix, h') ← _clean_txn_loop self (txns_by_date self) h txn_list;
  if (0 <? length txn_list)%nat then
    let date_list := sort_strings (map fst (map_to_list ix)) in
    match head date_list, last date_list with
    | Some first, Some final => Ok (set_index ix (Some first) (Some final) self, h')
    | _, _ => Raise IndexError
    end
  else
    Ok (set_index ix (Some today) (Some today) self, h').

End Converter.

(** ** The IIF grammar ([iif_parser.py])

    The grammar is built from pyparsing elements.  An element is a function
    from the text still to be read to its tokens and the text after them.
    The whole grammar has [leaveWhitespace] and [parseWithTabs] applied, so no
    element skips white space and tabs are kept.

    Two behaviours of the library matter for the exceptions of this file:
    an [IndexError] that escapes while an [And] sequence is being matched is
    reported by that sequence as a [ParseException], and a repetition
    ([ZeroOrMore], [OneOrMore] after its first match) ends quietly when its
    element raises [ParseException] or [IndexError]. *)

Module IifParser.

Definition trns_items : list (string * string) :=
  [ ("TRNSID", "Number"); ("TIMESTAMP", "Timestamp"); ("TRNSTYPE", "Type");
    ("DATE", "Date"); ("ACCNT", "Accnt"); ("NAME", "Payee");
    ("CLASS", "Category"); ("AMOUNT", "Amount"); ("DOCNUM", "Docnum");
    ("MEMO", "Memo"); ("CLEAR", "Clear"); ("PRICE", "Price") ].

Definition spl_items : list (string * string) :=
  [ ("SPLID", "Splid"); ("TRNSTYPE", "Trnstype"); ("DATE", "Date");
    ("ACCNT", "Accnt"); ("NAME", "Name"); ("CLASS", "Class");
    ("AMOUNT", "Amount"); ("DOCNUM", "Docnum"); ("MEMO", "Memo");
    ("CLEAR", "Clear"); ("PRICE", "Price"); ("QNTY", "Qnty");
    ("INVITEM", "Invitem"); ("PAYMETH", "Paymeth"); ("TAXABLE", "Taxable");
    ("REIMBEREXP", "Reimberexp"); ("EXTRA", "Extra"); ("VALDAJ", "Valdaj") ].

Definition TAB : ascii := "009".
Definition LF : ascii := "010".
Definition CR : ascii := "013".
Definition DQUOTE : ascii := "034".
Definition SQUOTE : ascii := "039".

(** [dropQuotes(t)] on the token [tok = t[0]]: the new token when the action
    returns one, [None] when it returns nothing and the token stays. *)
Definition dropQuotes (tok : string) : result (option string) :=
  match tok, Py.last_char tok with
  | String first rest, Some final =>
      if Ascii.eqb first DQUOTE && Ascii.eqb final DQUOTE
         || Ascii.eqb first SQUOTE && Ascii.eqb final SQUOTE
      then Ok (Some (Py.drop_last rest))
      else Ok None
  | _, _ => Raise IndexError
  end.

Definition parser (A : Type) : Type := string -> result (A * string).

#[global] Instance parser_ret : MRet parser := fun _ a s => Ok (a, s).
#[global] Instance parser_bind : MBind parser := fun _ _ k p s =>
  match p s with
  | Ok (a, r) => k a r
  | Raise e => Raise e
  end.

(** [Literal(lit)] *)
Definition Literal (lit : string) : parser string := fun s =>
  if Py.startswith lit s then Ok (lit, Py.slice_from (String.length lit) s)
  else Raise ParseException.

(** [Suppress(p)]: match and drop the tokens. *)
Definition Suppress {A} (p : parser A) : parser unit := fun s =>
  match p s with
  | Ok (_, r) => Ok (tt, r)
  | Raise e => Raise e
  end.

(** The boundary of an [And] sequence [e1 + e2 + ...]: [body] matches the
    elements one after the other. *)
Definition And {A} (body : parser A) : parser A := fun s =>
  match body s with
  | Raise IndexError => Raise ParseException
  | r => r
  end.

(** The loop of a repetition.  Every element repeated in this grammar reads
    at least one character, so [S (length s)] rounds are never used up. *)
Fixpoint repeat_element {A} (fuel : nat) (p : parser A) (s : string)
    : result (list A * string) :=
  match fuel with
  | O => Ok ([], s)
  | S fuel' =>
      match p s with
      | Ok (a, r) =>
          match repeat_element fuel' p r with
          | Ok (l, r') => Ok (a :: l, r')
          | Raise e => Raise e
          end
      | Raise ParseException | Raise IndexError => Ok ([], s)
      | Raise e => Raise e
      end
  end.

Definition ZeroOrMore {A} (p : parser A) : parser (list A) := fun s =>
  repeat_element (S (String.length s)) p s.

Definition OneOrMore {A} (p : parser A) : parser (list A) :=
  a ← p; l ← ZeroOrMore p; mret (a :: l).

(** [White(" \t")]: one or more spaces or tabs. *)
Fixpoint skip_blanks (s : string) : string :=
  match s with
  | String c r => if Ascii.eqb c " " || Ascii.eqb c TAB then skip_blanks r else s
  | EmptyString => EmptyString
  end.

Definition White : parser unit := fun s =>
  match s with
  | String c r =>
      if Ascii.eqb c " " || Ascii.eqb c TAB then Ok (tt, skip_blanks r)
      else Raise ParseException
  | EmptyString => Raise ParseException
  end.

(** [LineEnd()]: a newline, or the end of the text. *)
Definition LineEnd : parser unit := fun s =>
  match s with
  | EmptyString => Ok (tt, EmptyString)
  | String c r => if Ascii.eqb c LF then Ok (tt, r) else Raise ParseException
  end.

(** [Regex("[^\t\r\n]*")]: the longest run without tab, CR and LF. *)
Fixpoint field_run (s : string) : string * string :=
  match s with
  | String c r =>
      if Ascii.eqb c TAB || Ascii.eqb c CR || Ascii.eqb c LF then (EmptyString, s)
      else let '(tok, rest) := field_run r in (String c tok, rest)
  | EmptyString => (EmptyString, EmptyString)
  end.

(** [oneOf(keys)]: no key of the two tables is a prefix of another, so the
    order of the alternatives does not matter. *)
Fixpoint oneOf (keys : list string) : parser string := fun s =>
  match keys with
  | [] => Raise ParseException
  | k :: rest =>
      if Py.startswith k s then Ok (k, Py.slice_from (String.length k) s)
      else oneOf rest s
  end.

(** [delimitedList(p, sep)] is [p + ZeroOrMore(sep + p)]. *)
Definition delimitedList {A} (p : parser A) (sep : parser unit) : parser (list A) :=
  And (a ← p; l ← ZeroOrMore (And (sep;; p)); mret (a :: l)).

Definition sep : parser unit := Suppress (Literal (String TAB EmptyString)).
Definition eol : parser unit := Suppress (And (ZeroOrMore White;; LineEnd)).

(** [item = Regex("[^\t\r\n]*").setParseAction(dropQuotes)] *)
Definition item : parser string := fun s =>
  let '(tok, rest) := field_run s in
  match dropQuotes tok with
  | Ok (Some tok') => Ok (tok', rest)
  | Ok None => Ok (tok, rest)
  | Raise e => Raise e
  end.

(** One parsed [TRNS ... ENDTRNS] block: the dictionary with keys ["TRN"]
    and ["SPL"]. *)
Record trns_rec : Type := { TRN : list string; SPL : list (list string) }.

(** The dictionary of one statement section, [p["TRANSACTS"][0][0]]. *)
Record trns_block : Type := {
  TRNS_FLDS : list string;
  SPL_FLDS : list string;
  TRNS : list trns_rec
}.

Definition trns_fields : parser (list string) := delimitedList (oneOf (map fst trns_items)) sep.
Definition spl_fields : parser (list string) := delimitedList (oneOf (map fst spl_items)) sep.

Definition trns_header : parser (list string * list string) :=
  And (Suppress (Literal "!TRNS");; sep;; tf ← trns_fields; eol;;
       Suppress (Literal "!SPL");; sep;; sf ← spl_fields; eol;;
       Suppress (Literal "!ENDTRNS");; eol;;
       mret (tf, sf)).

Definition spl_entry : parser (list string) :=
  And (Suppress (Literal "SPL");; sep;; l ← delimitedList item sep; eol;; mret l).

Definition trns_entry : parser trns_rec :=
  And (Suppress (Literal "TRNS");; sep;; trn ← delimitedList item sep; eol;;
       spl ← OneOrMore spl_entry;
       Suppress (Literal "ENDTRNS");; eol;;
       mret {| TRN := trn; SPL := spl |}).

Definition trns_entries : parser trns_block :=
  And ('(tf, sf) ← trns_header; trns ← ZeroOrMore trns_entry;
       mret {| TRNS_FLDS := tf; SPL_FLDS := sf; TRNS := trns |}).

(** [IifParser.parse]: [parseString] without [parseAll], so text left after
    the last block that matched is ignored. *)
Definition parse (iif : string) : result trns_block :=
  match trns_entries iif with
  | Ok (block, _) => Ok block
  | Raise e => Raise e
  end.

(** [IifParser.trns_items[key]] *)
Definition trns_item (key : string) : result string :=
  match List.find (fun kv => String.eqb (fst kv) key) trns_items with
  | Some kv => Ok (snd kv)
  | None => Raise KeyError
  end.

(** The inner loop of [get_txn_list]: [i] counts the fields of the record,
    [trns_fields[i]] raises [IndexError] past the end of the header. *)
Fixpoint fill_txn (trns_fields : list string) (i : nat) (trn : list string) (t : txn)
    : result txn :=
  match trn with
  | [] => Ok t
  | fld :: rest =>
      match trns_fields !! i with
      | Some column =>
          name ← trns_item column;
          fill_txn trns_fields (S i) rest (<[name := fld]> t)
      | None => Raise IndexError
      end
  end.

Fixpoint get_txn_records (trns_fields : list string) (trns : list trns_rec)
    : result (list txn) :=
  match trns with
  | [] => Ok []
  | trn_rec :: rest =>
      t ← fill_txn trns_fields 0 (TRN trn_rec) ∅;
      l ← get_txn_records trns_fields rest;
      Ok (t :: l)
  end.

Definition get_txn_list (block : trns_block) : result (list txn) :=
  get_txn_records (TRNS_FLDS block) (TRNS block).

End IifParser.

(** ** Construction of a converter *)

Section Init.
Context `{Ext : Externals}.

(** Only the first statement section is read. *)
Definition _extract_txn_list (iif : IifParser.trns_block) : result (list txn) :=
  IifParser.get_txn_list iif.

(** [IifConverter.__init__]: the attributes are set from the arguments, the
    document is parsed and the transactions are extracted and scanned by
    [_guess_formats].  The last statement of the method, the call of
    [_clean_txn_list], is commented out in the source. *)
Definition __init__ (iif fid org bankid accttype acctid balance : string)
    (curdef : option string) (lang : string) (dayfirst : bool) : result IifConverter :=
  let self :=
    {| fid := fid; org := org; bankid := bankid; accttype := accttype;
       acctid := acctid; balance := balance; curdef := curdef; lang := lang;
       dayfirst := dayfirst; txns_by_date := ∅;
       start_date := None; end_date := None |} in
  parsed_iif ← IifParser.parse iif;
  txn_list ← _extract_txn_list parsed_iif;
  _guess_formats self txn_list.

End Init.

(** ** Rendering the transactions ([_ofx_txn], [_ofx_txns]) *)

(** [xml.sax.saxutils] *)
Module Sax.

(** [s.replace(pat, rep)] for a pattern that is not empty; [skip] counts the
    characters of a match still to be passed over. *)
Fixpoint replace_from (pat rep : string) (skip : nat) (s : string) : string :=
  match s with
  | EmptyString => EmptyString
  | String c r =>
      match skip with
      | S k => replace_from pat rep k r
      | O =>
          if Py.startswith pat s
          then rep +:+ replace_from pat rep (String.length pat - 1) r
          else String c (replace_from pat rep 0 r)
      end
  end.

Definition replace (pat rep s : string) : string := replace_from pat rep 0 s.

(** [escape(data)] *)
Definition escape (data : string) : string :=
  replace "<" "&lt;" (replace ">" "&gt;" (replace "&" "&amp;" data)).

(** [unescape(data)] *)
Definition unescape (data : string) : string :=
  replace "&amp;" "&" (replace "&gt;" ">" (replace "&lt;" "<" data)).

End Sax.

(** The tags of [fixofx.ofx.builder] that [_ofx_txn] uses.  The builder is
    not part of these files; a tag applied to a value is kept as the pair of
    the two, and [STMTTRN] applied to the fields as the list of its arguments. *)
Inductive tag : Type :=
  TRNTYPE | DTPOSTED | TRNAMT | CHECKNUM | FITID | NAME | MEMO | CATEGORY.

Definition _check_field (key : string) (t : txn) : bool :=
  match t !! key with
  | Some v => negb (String.eqb (Py.strip v) EmptyString)
  | None => false
  end.

(** One [if self._check_field(key, txn): fields.append(TAG(f(txn[key].strip())))]. *)
Definition field (key : string) (tg : tag) (f : string -> string) (t : txn)
    : list (tag * string) :=
  if _check_field key t then [(tg, f (Py.strip (get t key EmptyString)))] else [].

Definition _ofx_txn (t : txn) : list (tag * string) :=
  field "Type" TRNTYPE id t ++ field "Date" DTPOSTED id t ++ field "Amount" TRNAMT id t
  ++ field "Number" CHECKNUM id t ++ field "ID" FITID id t
  ++ field "Payee" NAME (fun v => Sax.escape (Sax.unescape v)) t
  ++ field "Memo" MEMO (fun v => Sax.escape (Sax.unescape v)) t
  ++ field "Category" CATEGORY (fun v => Sax.escape (Sax.unescape v)) t.

(** The synthetic transaction ID. *)
Definition txn_id (self : IifConverter) (txn_date : string) (txn_index : nat)
    (txn_amt : string) : string :=
  org self +:+ "-" +:+ accttype self +:+ "-" +:+ txn_date +:+ "-"
  +:+ str_of_nat txn_index +:+ "-" +:+ txn_amt.

(** The inner loop of [_ofx_txns] over the transactions of one date: each
    dict gets its ID, in place, and is rendered as it then is.  [txn_index]
    starts at the size of the bucket and goes down by one for each
    transaction, so it stays above zero while transactions remain. *)
Fixpoint _ofx_txns_bucket (self : IifConverter) (txn_index : nat) (bucket : list ref)
    (h : heap) : heap * list (list (tag * string)) :=
  match bucket with
  | [] => (h, [])
  | r :: rest =>
      let txn_date := get (deref h r) "Date" "UNKNOWN" in
      let txn_amt := get (deref h r) "Amount" "00.00" in
      let t' := <["ID" := txn_id self txn_date txn_index txn_amt]> (deref h r) in
      let '(h', out) := _ofx_txns_bucket self (txn_index - 1) rest (<[r := t']> h) in
      (h', _ofx_txn t' :: out)
  end.

(** The outer loop, over the dates from the latest to the earliest. *)
Fixpoint _ofx_txns_dates (self : IifConverter) (date_list : list string) (h : heap)
    : heap * list (list (tag * string)) :=
  match date_list with
  | [] => (h, [])
  | date :: rest =>
      let txn_list := default [] (txns_by_date self !! date) in
      let '(h', out) := _ofx_txns_bucket self (length txn_list) txn_list h in
      let '(h'', out') := _ofx_txns_dates self rest h' in
      (h'', out ++ out')
  end.

(** [_ofx_txns]: the store with the IDs assigned, and the arguments of
    [BANKTRANLIST], which are read after the loop; reading a statement date
    that was never assigned raises [AttributeError]. *)
Definition _ofx_txns (self : IifConverter) (h : heap)
    : heap * result (string * string * list (list (tag * string))) :=
  let date_list := rev (sort_strings (map fst (map_to_list (txns_by_date self)))) in
  let '(h', txns) := _ofx_txns_dates self date_list h in
  (h',
   match start_date self, end_date self with
   | Some sd, Some ed => Ok (sd, ed, txns)
   | _, _ => Raise AttributeError
   end).

(** ** A concrete instance of the external libraries

    The theorems below hold for every [Externals].  To run the converter on
    concrete statements, [Sample] gives the behaviour of the libraries on the
    two plain forms the examples use: dates written as three groups of
    digits separated by slashes, and fixed-point literals with an optional
    sign.  A date is read when its year has four digits; a number beyond the
    range of a C [int] is an [OverflowError], every other failure a
    [ValueError]. *)

Module Sample.

Definition Z_of_digits (s : string) : option Z :=
  match s with
  | EmptyString => None
  | _ => if Py.all_chars Py.isdigit s then Py.int_digits 0 false s else None
  end.

(** The largest C [int]. *)
Definition INT_MAX : Z := 2147483647.

(** Split at the first slash. *)
Fixpoint split_slash (s : string) : option (string * string) :=
  match s with
  | EmptyString => None
  | String c r =>
      if Ascii.eqb c "/" then Some (EmptyString, r)
      else '(a, b) ← split_slash r; Some (String c a, b)
  end.

Definition leap (y : nat) : bool :=
  ((y mod 4 =? 0) && negb (y mod 100 =? 0) || (y mod 400 =? 0))%nat.

Definition days_in_month (y m : nat) : nat :=
  match m with
  | 1 | 3 | 5 | 7 | 8 | 10 | 12 => 31
  | 4 | 6 | 9 | 11 => 30
  | 2 => if leap y then 29 else 28
  | _ => 0
  end.

Definition valid_date (y m d : nat) : bool :=
  ((1 <=? y) && (1 <=? m) && (m <=? 12) && (1 <=? d) && (d <=? days_in_month y m))%nat.

(** The three numbers of [a/b/c]. *)
Definition slash_fields (s : string) : option (Z * Z * string) :=
  '(a, r) ← split_slash s;
  '(b, c) ← split_slash r;
  a ← Z_of_digits a;
  b ← Z_of_digits b;
  _ ← Z_of_digits c;
  Some (a, b, c).

(** Month first unless [dayfirst]; when the month position holds a number
    above 12 and the other one does not, the two are exchanged. *)
Definition slash_date (s : string) (dayfirst : bool) : result datetime :=
  match slash_fields s with
  | None => Raise ValueError
  | Some (a, b, c) =>
      let y := default 0%Z (Z_of_digits c) in
      if ((INT_MAX <? a) || (INT_MAX <? b) || (INT_MAX <? y))%Z then Raise OverflowError
      else if negb (String.length c =? 4)%nat || (99 <? a)%Z || (99 <? b)%Z
      then Raise ValueError
      else
        let '(a, b, y) := (Z.to_nat a, Z.to_nat b, Z.to_nat y) in
        let '(m, d) := if dayfirst then (b, a) else (a, b) in
        let '(m, d) := if ((12 <? m) && (d <=? 12))%nat then (d, m) else (m, d) in
        if valid_date y m d then Ok {| year := y; month := m; day := d |}
        else Raise ValueError
  end.

(** Digits before and after the point of [digits[.digits]]. *)
Fixpoint split_point (s : string) : string * option string :=
  match s with
  | EmptyString => (EmptyString, None)
  | String c r =>
      if Ascii.eqb c "." then (EmptyString, Some r)
      else let '(a, b) := split_point r in (String c a, b)
  end.

Definition digits_value (s : string) : Z := default 0%Z (Py.int_digits 0 false s).

(** Is the discarded tail above, at or below one half of the last kept
    place? *)
Definition tail_cmp (tail : string) : comparison :=
  match tail with
  | EmptyString => Lt
  | String c r =>
      match (Py.digit_val c ?= 5)%Z with
      | Eq => if Py.all_chars (Ascii.eqb "0") r then Eq else Gt
      | o => o
      end
  end.

(** Round half to even at two places and print with a point. *)
Definition fixed_point_quantize (s : string) : option string :=
  let '(sign, body) :=
    match s with
    | String "-" r => ("-", r)
    | String "+" r => (EmptyString, r)
    | _ => (EmptyString, s)
    end in
  let '(ip, fp) := split_point body in
  let fp := default EmptyString fp in
  if Py.all_chars Py.isdigit ip && Py.all_chars Py.isdigit fp
     && negb (String.eqb (ip +:+ fp) EmptyString) then
    let kept := Py.slice 0 2 (fp +:+ "00") in
    let scaled := digits_value (ip +:+ kept) in
    let scaled :=
      match tail_cmp (Py.slice_from 2 fp) with
      | Gt => (scaled + 1)%Z
      | Eq => if Z.odd scaled then (scaled + 1)%Z else scaled
      | Lt => scaled
      end in
    if (scaled <? 10 ^ 28)%Z then
      Some (sign +:+ zfill 1 (Z.to_nat (scaled / 100))
            +:+ "." +:+ zfill 2 (Z.to_nat (scaled mod 100)))
    else None
  else None.

#[export] Instance externals : Externals :=
  {| dateutil_parse := slash_date;
     decimal_quantize := fixed_point_quantize;
     today := "20161104" |}.

(** A converter as [__init__] sets it up from its keyword defaults, for a
    given account type. *)
Definition converter (accttype : string) : IifConverter :=
  {| fid := "UNKNOWN"; org := "UNKNOWN"; bankid := "UNKNOWN";
     accttype := accttype; acctid := "UNKNOWN"; balance := "UNKNOWN";
     curdef := None; lang := "ENG"; dayfirst := false;
     txns_by_date := ∅; start_date := None; end_date := None |}.

End Sample.

(** ** Sample statements *)

(** One line of a document: the fields joined by tabs, then a newline. *)
Fixpoint line (fields : list string) : string :=
  match fields with
  | [] => String IifParser.LF EmptyString
  | [f] => f +:+ String IifParser.LF EmptyString
  | f :: rest => f +:+ String IifParser.TAB (line rest)
  end.

Definition header : string :=
  line ["!TRNS"; "DATE"; "AMOUNT"; "MEMO"] +:+ line ["!SPL"; "DATE"; "AMOUNT"]
  +:+ line ["!ENDTRNS"].

(** A statement with the single transaction of scenario A. *)
Definition statement_A : string :=
  header
  +:+ line ["TRNS"; "03/25/2016"; "-50.00"; "Grocery"]
  +:+ line ["SPL"; "03/25/2016"; "50.00"]
  +:+ line ["ENDTRNS"].

(** The same transaction in a statement whose header declares no [DATE]
    column. *)
Definition statement_without_dates : string :=
  line ["!TRNS"; "AMOUNT"; "MEMO"] +:+ line ["!SPL"; "AMOUNT"] +:+ line ["!ENDTRNS"]
  +:+ line ["TRNS"; "-50.00"; "Grocery"]
  +:+ line ["SPL"; "50.00"]
  +:+ line ["ENDTRNS"].

(** A statement whose first record has an empty second field, followed by
    the record of scenario A. *)
Definition statement_with_empty_field : string :=
  header
  +:+ line ["TRNS"; "03/24/2016"; EmptyString; "Bakery"]
  +:+ line ["SPL"; "03/24/2016"; "7.00"]
  +:+ line ["ENDTRNS"]
  +:+ line ["TRNS"; "03/25/2016"; "-50.00"; "Grocery"]
  +:+ line ["SPL"; "03/25/2016"; "50.00"]
  +:+ line ["ENDTRNS"].

(** A statement whose first record has two empty fields and nothing else
    after its first value, followed by the record of scenario A. *)
Definition statement_with_blank_tail : string :=
  header
  +:+ line ["TRNS"; "03/24/2016"; EmptyString; EmptyString]
  +:+ line ["SPL"; "03/24/2016"; "7.00"]
  +:+ line ["ENDTRNS"]
  +:+ line ["TRNS"; "03/25/2016"; "-50.00"; "Grocery"]
  +:+ line ["SPL"; "03/25/2016"; "50.00"]
  +:+ line ["ENDTRNS"].

(** A statement whose only record has an empty last field. *)
Definition statement_with_empty_last_field : string :=
  header
  +:+ line ["TRNS"; "03/25/2016"; "-50.00"; EmptyString]
  +:+ line ["SPL"; "03/25/2016"; "50.00"]
  +:+ line ["ENDTRNS"].

(** A statement whose record has one value more than the header has
    columns. *)
Definition statement_with_extra_value : string :=
  header
  +:+ line ["TRNS"; "03/25/2016"; "-50.00"; "Grocery"; "X"]
  +:+ line ["SPL"; "03/25/2016"; "50.00"]
  +:+ line ["ENDTRNS"].

Definition scenario_A : txn :=
  <["Date" := "03/25/2016"]> (<["Amount" := "-50.00"]> (<["Memo" := "Grocery"]> ∅)).


(** What [_clean_txn_list] leaves behind, in a form that prints: the dates of
    the index with the number of transactions under each, and the statement
    dates. *)
Definition summary (r : result (IifConverter * heap))
    : result (list (string * nat) * option string * option string) :=
  '(self, _) ← r;
  Ok (map (fun kv => (fst kv, length (snd kv))) (map_to_list (txns_by_date self)),
      start_date self, end_date self).

(** * Properties *)

(** ** Pass 1: [_guess_formats] *)

Section GuessFormats.
Context `{Ext : Externals}.

(** What [_parse_date] raises is [ValueError], or what the library raised
    at the first attempt. *)
Lemma _parse_date_exn txn_date dayfirst e :
  _parse_date txn_date dayfirst = Raise e ->
  e = ValueError \/ dateutil_parse txn_date dayfirst = Raise e.
Proof.
  unfold _parse_date, parse_or_ValueError.
  destruct (negb _); [| done]. destruct (negb _); [| intros [= <-]; by left].
  destruct (dateutil_parse txn_date dayfirst) as [d | e1]; [done |].
  destruct e1; try (intros [= <-]; by right).
  repeat case_match; intros [= <-]; by left.
Qed.

(** A date that is not ["UNKNOWN"] never comes back as ["UNKNOWN"]. *)
Lemma _parse_date_unknown txn_date dayfirst :
  _parse_date txn_date dayfirst = Ok Unknown -> txn_date = "UNKNOWN".
Proof.
  unfold _parse_date, parse_or_ValueError.
  destruct (String.eqb_spec txn_date "UNKNOWN") as [-> | _]; [done |].
  cbn. repeat case_match; congruence.
Qed.

Lemma _check_date_format_exn self parsed_date txn_date e :
  _check_date_format self parsed_date txn_date = Raise e -> e = ValueError.
Proof.
  unfold _check_date_format. repeat case_match; congruence.
Qed.

(** With no digit in front, the day-first check converts the empty prefix. *)
Lemma _check_date_format_no_leading_digit self parsed_date c rest :
  Py.isdigit c = false ->
  _check_date_format self parsed_date (String c rest) = Raise ValueError.
Proof.
  intros Hc. unfold _check_date_format, Py.search_nondigit. cbn. by rewrite Hc.
Qed.

(** The library was asked about the date of [t] and raised [e]. *)
Definition library_raised (e : exn) (t : txn) : Prop :=
  dateutil_parse (get t "Date" "UNKNOWN") false = Raise e.

Lemma _guess_formats_step_exn self t e :
  _guess_formats_step self t = Raise e -> e = ValueError \/ library_raised e t.
Proof.
  unfold _guess_formats_step. cbn.
  destruct (_parse_date _ _) as [p | e1] eqn:Hp; cbn.
  - destruct (_check_date_format _ _ _) as [self' | e2] eqn:Hc; cbn.
    + case_match; congruence.
    + intros [= <-]. left. by eapply _check_date_format_exn.
  - intros [= <-]. by eapply _parse_date_exn.
Qed.

Lemma _guess_formats_exn self txn_list e :
  _guess_formats self txn_list = Raise e ->
  e = ValueError \/ Exists (library_raised e) txn_list.
Proof.
  revert self. induction txn_list as [| t rest IH]; intros self; cbn; [done |].
  destruct (_guess_formats_step self t) as [self' | e1] eqn:Hs; cbn.
  - intros Hrest. destruct (IH _ Hrest) as [-> | Hex]; [by left | right].
    by apply Exists_cons_tl.
  - intros [= <-]. destruct (_guess_formats_step_exn _ _ _ Hs) as [-> | Hlib]; [by left | right].
    by apply Exists_cons_hd.
Qed.

(** The transactions that make the day-first check fail: no [Date] field,
    or a date whose first character is not a digit. *)
Definition date_without_leading_digit (t : txn) : Prop :=
  t !! "Date" = None \/
  exists c rest, t !! "Date" = Some (String c rest) /\ Py.isdigit c = false.

Lemma _guess_formats_step_no_leading_digit self t :
  date_without_leading_digit t -> exists e, _guess_formats_step self t = Raise e.
Proof.
  intros Hbad.
  assert (exists c rest, get t "Date" "UNKNOWN" = String c rest /\ Py.isdigit c = false)
    as (c & rest & Hget & Hc).
  { unfold get. destruct Hbad as [-> | (c & rest & -> & Hc)]; cbn; eauto. }
  unfold _guess_formats_step. rewrite Hget. cbn.
  destruct (_parse_date _ _) as [p | e] eqn:Hp; cbn; [| eauto].
  rewrite _check_date_format_no_leading_digit by done. eauto.
Qed.

Lemma _guess_formats_no_leading_digit self txn_list :
  Exists date_without_leading_digit txn_list ->
  exists e, _guess_formats self txn_list = Raise e.
Proof.
  intros Hex. revert self.
  induction Hex as [t rest Hbad | t rest _ IH]; intros self; cbn.
  - destruct (_guess_formats_step_no_leading_digit self t Hbad) as [e ->]. eauto.
  - destruct (_guess_formats_step self t) as [self' | e] eqn:Hs; cbn; [apply IH | eauto].
Qed.

(** Pass 1 touches the day-first flag and the currency only. *)
Lemma _guess_formats_step_index self t self' :
  _guess_formats_step self t = Ok self' ->
  txns_by_date self' = txns_by_date self /\
  start_date self' = start_date self /\ end_date self' = end_date self /\
  accttype self' = accttype self.
Proof.
  unfold _guess_formats_step. cbn.
  destruct (_parse_date _ _) as [p | e]; cbn; [| done].
  destruct (_check_date_format self p _) as [self1 | e] eqn:Hc; cbn; [| done].
  assert (txns_by_date self1 = txns_by_date self /\
          start_date self1 = start_date self /\ end_date self1 = end_date self /\
          accttype self1 = accttype self) as (<- & <- & <- & <-).
  { unfold _check_date_format in Hc.
    repeat case_match; try done; by injection Hc as <-. }
  case_match; by intros [= <-].
Qed.

Lemma _guess_formats_index txn_list : forall self self',
  _guess_formats self txn_list = Ok self' ->
  txns_by_date self' = txns_by_date self /\
  start_date self' = start_date self /\ end_date self' = end_date self /\
  accttype self' = accttype self.
Proof.
  induction txn_list as [| t rest IH]; intros self self'; cbn.
  - by intros [= <-].
  - destruct (_guess_formats_step self t) as [self1 | e] eqn:Hs; cbn; [| done].
    intros Hrest. apply IH in Hrest. apply _guess_formats_step_index in Hs.
    destruct Hrest as (-> & -> & -> & ->). done.
Qed.

End GuessFormats.

Lemma _guess_formats_app `{Ext : Externals} (before after : list txn) : forall self,
  _guess_formats self (before ++ after) =
  self' ← _guess_formats self before; _guess_formats self' after.
Proof.
  induction before as [| t rest IH]; intros self; cbn; [done |].
  destruct (_guess_formats_step self t); cbn; [apply IH | done].
Qed.

(** C9, as the code has it.  If some extracted transaction has no [Date]
    field, or a date whose first character is not a digit, [_guess_formats]
    does not return: it raises, nothing catches the exception, and [__init__]
    raises it too.  The exception is the [ValueError] of [_check_date_format],
    which converts the empty run of leading digits with [int()] before it
    looks at the parsed date, unless the date library raised another exception
    on the date of a transaction of the list; then it is that exception. *)
Theorem guess_formats_raises_without_leading_digit `{Ext : Externals}
    (self : IifConverter) (txn_list : list txn) :
  Exists date_without_leading_digit txn_list ->
  (exists e, _guess_formats self txn_list = Raise e /\
             (e = ValueError \/ Exists (library_raised e) txn_list)) /\
  forall iif fid org bankid accttype acctid balance curdef lang dayfirst,
    IifParser.parse iif ≫= _extract_txn_list = Ok txn_list ->
    exists e,
      __init__ iif fid org bankid accttype acctid balance curdef lang dayfirst = Raise e /\
      (e = ValueError \/ Exists (library_raised e) txn_list).
Proof.
  intros Hbad.
  assert (forall self, exists e, _guess_formats self txn_list = Raise e /\
            (e = ValueError \/ Exists (library_raised e) txn_list)) as Hraise.
  { intros self0. destruct (_guess_formats_no_leading_digit self0 _ Hbad) as [e He].
    exists e. split; [done | by eapply _guess_formats_exn]. }
  split; [apply Hraise |].
  intros iif fid org bankid accttype acctid balance curdef lang dayfirst Hparse.
  unfold __init__. cbn in *.
  destruct (IifParser.parse iif) as [block | e1]; cbn in *; [| done].
  rewrite Hparse. cbn. apply Hraise.
Qed.

Lemma guess_formats_raises_without_leading_digit_witness :
  (exists e,
     _guess_formats (Ext := Sample.externals) (Sample.converter "CHECKING")
       [<["Amount" := "-50.00"]> (<["Memo" := "Grocery"]> ∅)] = Raise e /\
     (e = ValueError \/
      Exists (library_raised (Ext := Sample.externals) e)
        [<["Amount" := "-50.00"]> (<["Memo" := "Grocery"]> ∅)])) /\
  exists e,
    __init__ (Ext := Sample.externals) statement_without_dates
      "UNKNOWN" "UNKNOWN" "UNKNOWN" "CHECKING" "UNKNOWN" "UNKNOWN" None "ENG" false
    = Raise e /\
    (e = ValueError \/
     Exists (library_raised (Ext := Sample.externals) e)
       [<["Amount" := "-50.00"]> (<["Memo" := "Grocery"]> ∅)]).
Proof.
  assert (Exists date_without_leading_digit
            [<["Amount" := "-50.00"]> (<["Memo" := "Grocery"]> (∅ : txn))]) as Hbad.
  { apply Exists_cons_hd. left. reflexivity. }
  split.
  - apply (guess_formats_raises_without_leading_digit (Ext := Sample.externals) _ _ Hbad).
  - apply (guess_formats_raises_without_leading_digit (Ext := Sample.externals)
             (Sample.converter "CHECKING") _ Hbad).
    vm_compute. reflexivity.
Defined.

(** On a statement with no date column the exception is the [ValueError]. *)
Example init_without_dates :
  __init__ (Ext := Sample.externals) statement_without_dates
    "UNKNOWN" "UNKNOWN" "UNKNOWN" "CHECKING" "UNKNOWN" "UNKNOWN" None "ENG" false
  = Raise ValueError.
Proof. vm_compute. reflexivity. Qed.

(** C9, as stated, fails: the exception is not always [ValueError].  The
    second transaction has no date, but the number in the date of the first
    one is too large for the date library, whose [OverflowError] ends the
    pass before the second transaction is looked at. *)
Lemma guess_formats_raises_overflow_first :
  Exists date_without_leading_digit
    [<["Date" := "1/1/99999999999999999999"]> ∅; <["Amount" := "-50.00"]> (∅ : txn)] /\
  _guess_formats (Ext := Sample.externals) (Sample.converter "CHECKING")
    [<["Date" := "1/1/99999999999999999999"]> ∅; <["Amount" := "-50.00"]> ∅]
  = Raise OverflowError.
Proof.
  split; [| vm_compute; reflexivity].
  apply Exists_cons_tl, Exists_cons_hd. left. reflexivity.
Qed.

(** C2, as the code has it.  Pass 1 does not absorb a date that fails to
    parse: [_parse_date] raises [ValueError], [_guess_formats] has no handler,
    and the pass ends at that transaction with the error, whatever the
    transactions before it were and without looking at those after it. *)
Theorem guess_formats_stops_at_unparseable_date `{Ext : Externals}
    (self self' : IifConverter) (before rest : list txn) (t : txn) :
  _guess_formats self before = Ok self' ->
  _parse_date (get t "Date" "UNKNOWN") false = Raise ValueError ->
  _guess_formats self (before ++ t :: rest) = Raise ValueError.
Proof.
  intros Hbefore Hdate. rewrite _guess_formats_app, Hbefore. cbn.
  unfold _guess_formats_step. by rewrite Hdate.
Qed.

Lemma guess_formats_stops_at_unparseable_date_witness :
  _guess_formats (Ext := Sample.externals) (Sample.converter "CHECKING")
    ([scenario_A] ++ <["Date" := "99/99/9999"]> ∅ :: [scenario_A]) = Raise ValueError.
Proof.
  apply (guess_formats_stops_at_unparseable_date (Ext := Sample.externals)
           _ (Sample.converter "CHECKING")).
  - vm_compute. reflexivity.
  - vm_compute. reflexivity.
Defined.

(** C2, as stated, fails: a date beginning with a digit that does not parse
    makes pass 1 raise. *)
Lemma guess_formats_raises_on_unparseable_date :
  _parse_date (Ext := Sample.externals) "99/99/9999" false = Raise ValueError /\
  _guess_formats (Ext := Sample.externals) (Sample.converter "CHECKING")
    [<["Date" := "99/99/9999"]> ∅] = Raise ValueError.
Proof. split; vm_compute; reflexivity. Qed.

(** C1, evaluated on the code.  [__init__] stops after pass 1: whenever it
    returns, the date index is still empty and the statement dates are still
    unassigned. *)
Theorem init_leaves_index_unbuilt `{Ext : Externals}
    (iif fid org bankid accttype acctid balance : string) (curdef : option string)
    (lang : string) (dayfirst : bool) (self : IifConverter) :
  __init__ iif fid org bankid accttype acctid balance curdef lang dayfirst = Ok self ->
  txns_by_date self = ∅ /\ start_date self = None /\ end_date self = None.
Proof.
  unfold __init__. cbn.
  destruct (IifParser.parse iif) as [block | e]; cbn; [| done].
  destruct (_extract_txn_list block) as [txn_list | e]; cbn; [| done].
  intros Hguess. apply _guess_formats_index in Hguess.
  destruct Hguess as (-> & -> & -> & _). done.
Qed.

(** The statement of scenario A constructs, and the constructed converter
    has no index. *)
Lemma init_leaves_index_unbuilt_witness :
  txns_by_date (Sample.converter "CHECKING") = ∅ /\
  start_date (Sample.converter "CHECKING") = None /\
  end_date (Sample.converter "CHECKING") = None.
Proof.
  apply (init_leaves_index_unbuilt (Ext := Sample.externals) statement_A
           "UNKNOWN" "UNKNOWN" "UNKNOWN" "CHECKING" "UNKNOWN" "UNKNOWN" None "ENG" false).
  vm_compute. reflexivity.
Defined.

(** Its one transaction is extracted and would survive [_clean_txn_list],
    had [__init__] called it. *)
Example statement_A_extracted :
  IifParser.parse statement_A ≫= _extract_txn_list = Ok [scenario_A].
Proof. vm_compute. reflexivity. Qed.

Example scenario_A_indexed :
  summary (_clean_txn_list (Ext := Sample.externals) (Sample.converter "CHECKING")
             {[ 0 := scenario_A ]} [0])
  = Ok ([("20160325", 1)], Some "20160325", Some "20160325").
Proof. vm_compute. reflexivity. Qed.

(** ** Pass 2: the cleanup methods *)

Ltac unfold_M :=
  unfold mbind, M_bind, fmap, M_fmap, read, store, has, del, append, lift, skip,
    raise, mret, M_ret.

(** *** Libraries that give the same answers

    The converter consults the libraries at finitely many points.  Two
    instances that answer alike cannot be told apart, which lets a proof
    replace an arbitrary instance by one that computes on the questions
    asked. *)

Definition agree (E E' : Externals) : Prop :=
  (forall s b, @dateutil_parse E s b = @dateutil_parse E' s b) /\
  (forall s, @decimal_quantize E s = @decimal_quantize E' s) /\
  @today E = @today E'.

Definition with_date (E : Externals) (s : string) (b : bool) (d : result datetime)
    : Externals :=
  {| dateutil_parse := fun s' b' =>
       if String.eqb s' s && Bool.eqb b' b then d else @dateutil_parse E s' b';
     decimal_quantize := @decimal_quantize E;
     today := @today E |}.

Definition with_amount (E : Externals) (s : string) (q : option string) : Externals :=
  {| dateutil_parse := @dateutil_parse E;
     decimal_quantize := fun s' => if String.eqb s' s then q else @decimal_quantize E s';
     today := @today E |}.

Lemma agree_with_date E s b d : @dateutil_parse E s b = d -> agree (with_date E s b d) E.
Proof.
  intros Hd. repeat split. intros s' b'. cbn.
  destruct (String.eqb_spec s' s) as [-> |]; [| done].
  destruct (Bool.eqb_spec b' b) as [-> |]; done.
Qed.

Lemma agree_with_amount E s q : @decimal_quantize E s = q -> agree (with_amount E s q) E.
Proof.
  intros Hq. repeat split. intros s'. cbn.
  destruct (String.eqb_spec s' s) as [-> |]; done.
Qed.

Lemma agree_trans E1 E2 E3 : agree E1 E2 -> agree E2 E3 -> agree E1 E3.
Proof.
  intros (H1 & H2 & H3) (H1' & H2' & H3'). repeat split; intros; congruence.
Qed.

Lemma _parse_date_agree E E' s b : agree E E' -> @_parse_date E s b = @_parse_date E' s b.
Proof.
  intros (H1 & _). unfold _parse_date, parse_or_ValueError. by rewrite !H1.
Qed.

Lemma _clean_txn_date_agree E E' self t :
  agree E E' -> @_clean_txn_date E self t = @_clean_txn_date E' self t.
Proof.
  intros H. unfold _clean_txn_date. unfold_M. cbn.
  by rewrite (_parse_date_agree E E' _ _ H).
Qed.

Lemma _clean_txn_amount_agree E E' t :
  agree E E' -> @_clean_txn_amount E t = @_clean_txn_amount E' t.
Proof.
  intros (_ & H2 & _). unfold _clean_txn_amount. unfold_M. cbn.
  repeat case_match; try done; by rewrite H2.
Qed.

Lemma _clean_txn_agree E E' self t :
  agree E E' -> @_clean_txn E self t = @_clean_txn E' self t.
Proof.
  intros H. unfold _clean_txn. unfold_M.
  rewrite (_clean_txn_date_agree E E' _ _ H).
  destruct (_clean_txn_date self t) as [[[] | e] t1]; [| done].
  by rewrite (_clean_txn_amount_agree E E' _ H).
Qed.

(** *** Scenario A *)

(** The transaction of scenario A after [_clean_txn]. *)
Definition normalized_A : txn :=
  <["Payee" := "Grocery (Grocery)"]> (<["Type" := "DEBIT"]> (<["Payee" := "Grocery"]>
    (<["Amount" := "-50.00"]> (<["Date" := "20160325"]> scenario_A)))).

(** C3, as the code has it.  With the day-first flag off, on an account that
    is not a credit card, and with libraries that read the date as 25 March
    2016 and leave the amount at two places, the transaction of scenario A is
    normalized to date 20160325, amount -50.00 and type DEBIT.  The payee is
    the memo followed by the memo in parentheses: the memo rule of the payee
    chain comes before the "Other Debit" rule. *)
Theorem scenario_A_normalized `{Ext : Externals} (self : IifConverter) :
  dayfirst self = false ->
  accttype self <> "CREDITCARD" ->
  dateutil_parse "03/25/2016" false = Ok {| year := 2016; month := 3; day := 25 |} ->
  decimal_quantize "-50.00" = Some "-50.00" ->
  _clean_txn self scenario_A = (Ok tt, normalized_A) /\
  normalized_A !! "Date" = Some "20160325" /\
  normalized_A !! "Amount" = Some "-50.00" /\
  normalized_A !! "Type" = Some "DEBIT" /\
  normalized_A !! "Payee" = Some "Grocery (Grocery)".
Proof.
  intros Hdf _ Hdate Hamt.
  pose proof (agree_with_date _ _ _ _ Hdate) as H1.
  pose proof (agree_with_amount
    (with_date Ext "03/25/2016" false (Ok {| year := 2016; month := 3; day := 25 |}))
    _ _ Hamt) as H2.
  rewrite <- (_clean_txn_agree _ _ self scenario_A (agree_trans _ _ _ H2 H1)).
  destruct self. cbn in Hdf. subst.
  split; [vm_compute; reflexivity |].
  repeat split; vm_compute; reflexivity.
Qed.

Lemma scenario_A_normalized_witness :
  _clean_txn (Ext := Sample.externals) (Sample.converter "CHECKING") scenario_A
  = (Ok tt, normalized_A) /\
  normalized_A !! "Date" = Some "20160325" /\
  normalized_A !! "Amount" = Some "-50.00" /\
  normalized_A !! "Type" = Some "DEBIT" /\
  normalized_A !! "Payee" = Some "Grocery (Grocery)".
Proof.
  apply (scenario_A_normalized (Ext := Sample.externals) (Sample.converter "CHECKING")).
  - reflexivity.
  - discriminate.
  - vm_compute. reflexivity.
  - vm_compute. reflexivity.
Defined.

(** C3, as stated, fails: the payee of the normalized transaction is not
    ["Other Debit (Grocery)"]. *)
Lemma scenario_A_payee_is_not_other_debit :
  ~ (exists t' : txn,
       _clean_txn (Ext := Sample.externals) (Sample.converter "CHECKING") scenario_A
       = (Ok tt, t') /\
       t' !! "Payee" = Some "Other Debit (Grocery)").
Proof.
  intros (t' & Hrun & Hpayee).
  assert ((_clean_txn (Ext := Sample.externals) (Sample.converter "CHECKING")
             scenario_A).2 !! "Payee" = Some "Grocery (Grocery)") as Hseen
    by (vm_compute; reflexivity).
  rewrite Hrun in Hseen. cbn in Hseen. congruence.
Qed.

(** *** The type alias table *)

(** C4, evaluated on the code.  A type that matches a key of the alias table
    is stored upper-cased, as the key: the values of [txn_types] are never
    read.  So "DBT" stays "DBT" although the table maps it to "DEBIT", and
    "DEPOSIT" stays "DEPOSIT" although the table maps it to "DEP". *)
Theorem clean_txn_type_stores_the_key :
  _clean_txn_type (<["Type" := "DBT"]> ∅) = (Ok tt, <["Type" := "DBT"]> ∅) /\
  txn_types_value "DBT" = Some "DEBIT" /\
  _clean_txn_type (<["Type" := "DEPOSIT"]> ∅) = (Ok tt, <["Type" := "DEPOSIT"]> ∅) /\
  txn_types_value "DEPOSIT" = Some "DEP".
Proof. repeat split; vm_compute; reflexivity. Qed.

(** *** Check numbers *)

(** C7, evaluated on the code.  On a checking account the number "A1", which
    no drop rule removes and which is not made of digits only, gets the type
    CHECK: the pattern is searched for anywhere in the number. *)
Theorem clean_txn_number_checks_any_digit :
  Py.all_chars Py.isdigit "A1" = false /\
  _clean_txn_number (Sample.converter "CHECKING") (<["Number" := "A1"]> ∅)
  = (Ok tt, <["Type" := "CHECK"]> (<["Number" := "A1"]> ∅)).
Proof. split; vm_compute; reflexivity. Qed.

(** *** The loop of [_clean_txn_list] *)

Section CleanTxnList.
Context `{Ext : Externals}.

(** [_clean_txn_date] either stores a date, or raises and leaves the
    transaction alone; what it raises is what [_parse_date] raised. *)
Lemma _clean_txn_date_outcome self (t : txn) :
  (exists v, _clean_txn_date self t = (Ok tt, <["Date" := v]> t)) \/
  (exists e, _clean_txn_date self t = (Raise e, t) /\
             _parse_date (Py.strip (get t "Date" "UNKNOWN")) (dayfirst self) = Raise e).
Proof.
  unfold _clean_txn_date. unfold_M. cbn.
  destruct (String.eqb_spec (Py.strip (get t "Date" "UNKNOWN")) "UNKNOWN") as [Heq | Hne]; cbn.
  - left. eauto.
  - destruct (_parse_date _ _) as [[| d] | e] eqn:Hp; cbn.
    + by apply _parse_date_unknown in Hp.
    + left. eauto.
    + right. eauto.
Qed.

Lemma _clean_txn_date_unparseable self (t : txn) e :
  _parse_date (Py.strip (get t "Date" "UNKNOWN")) (dayfirst self) = Raise e ->
  _clean_txn_date self t = (Raise e, t).
Proof.
  intros Hp. unfold _clean_txn_date. unfold_M. cbn.
  destruct (String.eqb_spec (Py.strip (get t "Date" "UNKNOWN")) "UNKNOWN") as [Heq | Hne]; cbn.
  - rewrite Heq in Hp. discriminate.
  - by rewrite Hp.
Qed.

(** The amounts "-" and " " are refused. *)
Definition undefined_amount (t : txn) : Prop :=
  t !! "Amount" = Some "-" \/ t !! "Amount" = Some " ".

Lemma _clean_txn_amount_undefined (t : txn) :
  undefined_amount t -> _clean_txn_amount t = (Raise ValueError, t).
Proof.
  intros Ha. unfold _clean_txn_amount. unfold_M. unfold get.
  destruct Ha as [-> | ->]; reflexivity.
Qed.

(** A transaction with an undefined amount makes [_clean_txn] raise: with
    [ValueError], unless the date step before the amount step has raised
    already, and then with what the date step raised. *)
Lemma _clean_txn_undefined_amount self (t : txn) :
  undefined_amount t ->
  exists e t', _clean_txn self t = (Raise e, t') /\
    (e = ValueError \/
     _parse_date (Py.strip (get t "Date" "UNKNOWN")) (dayfirst self) = Raise e).
Proof.
  intros Ha. unfold _clean_txn. unfold_M.
  destruct (_clean_txn_date_outcome self t) as [[v ->] | (e & -> & He)]; [| eauto 6].
  rewrite _clean_txn_amount_undefined; [eauto 6 |].
  unfold undefined_amount in *. rewrite lookup_insert_ne by done. done.
Qed.

(** A transaction that [_clean_txn] rejects with [ValueError] is left out of
    the index and the loop goes on with the next one. *)
Lemma _clean_txn_loop_skip self ix (h : heap) (r : ref) (t' : txn) rest :
  _clean_txn self (deref h r) = (Raise ValueError, t') ->
  _clean_txn_loop self ix h (r :: rest) = _clean_txn_loop self ix (<[r := t']> h) rest.
Proof. intros Hrun. cbn. by rewrite Hrun. Qed.

(** Any other exception of [_clean_txn] leaves the loop. *)
Lemma _clean_txn_loop_abort self ix (h : heap) (r : ref) (t' : txn) rest e :
  _clean_txn self (deref h r) = (Raise e, t') -> e <> ValueError ->
  _clean_txn_loop self ix h (r :: rest) = Raise e.
Proof. intros Hrun He. cbn. rewrite Hrun. by destruct e. Qed.

Lemma _clean_txn_list_abort self (h : heap) (r : ref) (t' : txn) rest e :
  _clean_txn self (deref h r) = (Raise e, t') -> e <> ValueError ->
  _clean_txn_list self h (r :: rest) = Raise e.
Proof.
  intros Hrun He. unfold _clean_txn_list.
  by rewrite (_clean_txn_loop_abort _ _ _ _ _ _ _ Hrun He).
Qed.

Lemma deref_Some (h : heap) (r : ref) (t : txn) : h !! r = Some t -> deref h r = t.
Proof. unfold deref. by intros ->. Qed.

(** C5, as the code has it.  A date on which [_parse_date] raises makes
    [_clean_txn] raise the same exception before the transaction is touched.
    When it is [ValueError], [_clean_txn_list] catches it, does not store the
    transaction, and goes on with the remaining transactions, index and
    transaction as they were.  When it is another exception, which can only
    be one that the date library raised at the first attempt, nothing catches
    it and the pass ends with it. *)
Theorem clean_txn_list_skips_unparseable_date
    (self : IifConverter) (ix : gmap string (list ref)) (h : heap) (r : ref) (t : txn)
    (rest : list ref) (e : exn) :
  h !! r = Some t ->
  _parse_date (Py.strip (get t "Date" "UNKNOWN")) (dayfirst self) = Raise e ->
  _clean_txn self t = (Raise e, t) /\
  (e = ValueError ->
   _clean_txn_loop self ix h (r :: rest) = _clean_txn_loop self ix h rest) /\
  (e <> ValueError ->
   dateutil_parse (Py.strip (get t "Date" "UNKNOWN")) (dayfirst self) = Raise e /\
   _clean_txn_loop self ix h (r :: rest) = Raise e /\
   _clean_txn_list self h (r :: rest) = Raise e).
Proof.
  intros Hr Hp.
  assert (_clean_txn self t = (Raise e, t)) as Hrun.
  { unfold _clean_txn. unfold_M. by rewrite (_clean_txn_date_unparseable _ _ _ Hp). }
  split; [done |]. rewrite <- (deref_Some _ _ _ Hr) in Hrun at 1. split.
  - intros ->. rewrite (_clean_txn_loop_skip _ _ _ _ _ _ Hrun). by rewrite insert_id.
  - intros He. split.
    + destruct (_parse_date_exn _ _ _ Hp); [done | done].
    + split; [by eapply _clean_txn_loop_abort | by eapply _clean_txn_list_abort].
Qed.

(** With no transactions at all, both statement dates are today. *)
Lemma _clean_txn_list_nil self (h : heap) :
  _clean_txn_list self h [] =
  Ok (set_index (txns_by_date self) (Some today) (Some today) self, h).
Proof. reflexivity. Qed.

End CleanTxnList.

Definition unparseable_A : txn := <["Date" := "99/99/9999"]> (<["Amount" := "1.00"]> ∅).

Definition overflowing_A : txn :=
  <["Date" := "1/1/99999999999999999999"]> (<["Amount" := "1.00"]> ∅).

(** Both cases: a date that the library refuses with [ValueError] is skipped,
    a date whose number is too large for the library ends the pass. *)
Lemma clean_txn_list_skips_unparseable_date_witness :
  (_clean_txn (Ext := Sample.externals) (Sample.converter "CHECKING") unparseable_A
   = (Raise ValueError, unparseable_A) /\
   _clean_txn_loop (Ext := Sample.externals) (Sample.converter "CHECKING") ∅
     {[ 0 := unparseable_A; 1 := scenario_A ]} [0; 1] =
   _clean_txn_loop (Ext := Sample.externals) (Sample.converter "CHECKING") ∅
     {[ 0 := unparseable_A; 1 := scenario_A ]} [1]) /\
  _clean_txn_list (Ext := Sample.externals) (Sample.converter "CHECKING")
    {[ 0 := overflowing_A; 1 := scenario_A ]} [0; 1] = Raise OverflowError.
Proof.
  split.
  - destruct (clean_txn_list_skips_unparseable_date (Ext := Sample.externals)
                (Sample.converter "CHECKING") ∅ {[ 0 := unparseable_A; 1 := scenario_A ]}
                0 unparseable_A [1] ValueError) as (Hrun & Hskip & _).
    + reflexivity.
    + vm_compute. reflexivity.
    + split; [exact Hrun | apply Hskip; reflexivity].
  - destruct (clean_txn_list_skips_unparseable_date (Ext := Sample.externals)
                (Sample.converter "CHECKING") ∅ {[ 0 := overflowing_A; 1 := scenario_A ]}
                0 overflowing_A [1] OverflowError) as (_ & _ & Habort).
    + reflexivity.
    + vm_compute. reflexivity.
    + apply Habort. discriminate.
Defined.

(** C5, as stated, fails: a statement with an unparseable date and a good
    transaction is converted, with the good transaction alone in the index. *)
Lemma unparseable_date_does_not_abort :
  summary (_clean_txn_list (Ext := Sample.externals) (Sample.converter "CHECKING")
             {[ 0 := unparseable_A; 1 := scenario_A ]} [0; 1])
  = Ok ([("20160325", 1)], Some "20160325", Some "20160325").
Proof. vm_compute. reflexivity. Qed.

(** C6, evaluated on the code.  When the statement has transactions and all
    of them are rejected, the date range is read from an empty list of dates:
    [_clean_txn_list] raises [IndexError] instead of falling back to today. *)
Theorem clean_txn_list_all_rejected `{Ext : Externals} (self : IifConverter)
    (h : heap) (r : ref) :
  txns_by_date self = ∅ ->
  h !! r = Some (<["Amount" := "-"]> ∅) ->
  _clean_txn_list self h [r] = Raise IndexError.
Proof.
  intros Hix Hr. unfold _clean_txn_list. rewrite Hix.
  assert (_clean_txn self (deref h r)
          = (Raise ValueError, <["Date" := "UNKNOWN"]> (<["Amount" := "-"]> ∅))) as Hrun.
  { rewrite (deref_Some _ _ _ Hr). destruct self. vm_compute. reflexivity. }
  rewrite (_clean_txn_loop_skip _ _ _ _ _ _ Hrun). reflexivity.
Qed.

Lemma clean_txn_list_all_rejected_witness :
  _clean_txn_list (Ext := Sample.externals) (Sample.converter "CHECKING")
    {[ 0 := <["Amount" := "-"]> ∅ ]} [0] = Raise IndexError.
Proof.
  apply (clean_txn_list_all_rejected (Ext := Sample.externals)); reflexivity.
Defined.

(** C8, evaluated on the code.  A statement whose only transaction has the
    amount " " does not convert: the transaction is dropped, and then the
    date range is read from the empty index, which raises [IndexError]. *)
Theorem undefined_amount_alone_fails `{Ext : Externals} (self : IifConverter)
    (h : heap) (r : ref) :
  txns_by_date self = ∅ ->
  h !! r = Some (<["Amount" := " "]> (<["Memo" := "Thank you for your payment!"]> ∅)) ->
  _clean_txn_list self h [r] = Raise IndexError.
Proof.
  intros Hix Hr. unfold _clean_txn_list. rewrite Hix.
  assert (_clean_txn self (deref h r)
          = (Raise ValueError,
             <["Date" := "UNKNOWN"]>
               (<["Amount" := " "]> (<["Memo" := "Thank you for your payment!"]> ∅))))
    as Hrun.
  { rewrite (deref_Some _ _ _ Hr). destruct self. vm_compute. reflexivity. }
  rewrite (_clean_txn_loop_skip _ _ _ _ _ _ Hrun). reflexivity.
Qed.

Lemma undefined_amount_alone_fails_witness :
  _clean_txn_list (Ext := Sample.externals) (Sample.converter "SAVINGS")
    {[ 0 := <["Amount" := " "]> (<["Memo" := "Thank you for your payment!"]> ∅) ]} [0]
  = Raise IndexError.
Proof.
  apply (undefined_amount_alone_fails (Ext := Sample.externals)); reflexivity.
Defined.

(** ** The grammar *)

Module IifParserFacts.
Import IifParser.

(** An element fails softly when all it raises is what a repetition
    absorbs. *)
Definition fails_softly {A} (p : parser A) : Prop :=
  forall s e, p s = Raise e -> e = ParseException \/ e = IndexError.

Lemma ret_soft {A} (a : A) : fails_softly (mret a : parser A).
Proof. intros s e. discriminate. Qed.

Lemma bind_soft {A B} (p : parser A) (k : A -> parser B) :
  fails_softly p -> (forall a, fails_softly (k a)) -> fails_softly (p ≫= k).
Proof.
  intros Hp Hk s e. unfold mbind, parser_bind.
  destruct (p s) as [[a r] | e'] eqn:Hps.
  - apply Hk.
  - intros [= <-]. by eapply Hp.
Qed.

Lemma And_soft {A} (body : parser A) : fails_softly body -> fails_softly (And body).
Proof.
  intros Hb s e. unfold And.
  destruct (body s) as [[a r] | e'] eqn:Hbs; [done |].
  destruct (Hb _ _ Hbs) as [-> | ->]; intros [= <-]; auto.
Qed.

Lemma Literal_soft lit : fails_softly (Literal lit).
Proof. intros s e. unfold Literal. case_match; [done |]. intros [= <-]. auto. Qed.

Lemma Suppress_soft {A} (p : parser A) : fails_softly p -> fails_softly (Suppress p).
Proof.
  intros Hp s e. unfold Suppress.
  destruct (p s) as [[a r] | e'] eqn:Hps; [done |]. intros [= <-]. by eapply Hp.
Qed.

Lemma White_soft : fails_softly White.
Proof. intros s e. unfold White. repeat case_match; try done; intros [= <-]; auto. Qed.

Lemma LineEnd_soft : fails_softly LineEnd.
Proof. intros s e. unfold LineEnd. repeat case_match; try done; intros [= <-]; auto. Qed.

Lemma item_soft : fails_softly item.
Proof.
  intros s e. unfold item. destruct (field_run s) as [tok rest].
  destruct (dropQuotes tok) as [[tok' |] | e'] eqn:Hd; try done.
  intros [= <-]. right. unfold dropQuotes in Hd.
  repeat case_match; congruence.
Qed.

Lemma repeat_element_S {A} (fuel : nat) (p : parser A) (s : string) :
  repeat_element (S fuel) p s =
  match p s with
  | Ok (a, r) =>
      match repeat_element fuel p r with
      | Ok (l, r') => Ok (a :: l, r')
      | Raise e => Raise e
      end
  | Raise ParseException | Raise IndexError => Ok ([], s)
  | Raise e => Raise e
  end.
Proof. reflexivity. Qed.

(** A repetition of an element that fails softly never raises. *)
Lemma repeat_element_returns {A} (p : parser A) :
  fails_softly p ->
  forall fuel s, exists l r, repeat_element fuel p s = Ok (l, r).
Proof.
  intros Hp. induction fuel as [| fuel IH]; intros s; cbn; [eauto |].
  destruct (p s) as [[a r] | e] eqn:Hps.
  - destruct (IH r) as (l & r' & ->). eauto.
  - destruct (Hp _ _ Hps) as [-> | ->]; eauto.
Qed.

Lemma ZeroOrMore_returns {A} (p : parser A) :
  fails_softly p -> forall s, exists l r, ZeroOrMore p s = Ok (l, r).
Proof. intros Hp s. by apply repeat_element_returns. Qed.

Lemma ZeroOrMore_soft {A} (p : parser A) : fails_softly p -> fails_softly (ZeroOrMore p).
Proof.
  intros Hp s e He. destruct (ZeroOrMore_returns p Hp s) as (l & r & Hok). congruence.
Qed.

Lemma OneOrMore_soft {A} (p : parser A) : fails_softly p -> fails_softly (OneOrMore p).
Proof.
  intros Hp. unfold OneOrMore.
  apply bind_soft; [done |]. intros a.
  apply bind_soft; [by apply ZeroOrMore_soft |]. intros l. apply ret_soft.
Qed.

Lemma delimitedList_soft {A} (p : parser A) (sep : parser unit) :
  fails_softly p -> fails_softly sep -> fails_softly (delimitedList p sep).
Proof.
  intros Hp Hsep. unfold delimitedList.
  apply And_soft, bind_soft; [done |]. intros a.
  apply bind_soft; [| intros l; apply ret_soft].
  apply ZeroOrMore_soft, And_soft, bind_soft; [done | by intros _].
Qed.

Lemma sep_soft : fails_softly sep.
Proof. apply Suppress_soft, Literal_soft. Qed.

Lemma eol_soft : fails_softly eol.
Proof.
  apply Suppress_soft, And_soft, bind_soft; [| intros _; apply LineEnd_soft].
  apply ZeroOrMore_soft, White_soft.
Qed.

Lemma spl_entry_soft : fails_softly spl_entry.
Proof.
  unfold spl_entry. apply And_soft.
  apply bind_soft; [apply Suppress_soft, Literal_soft | intros _].
  apply bind_soft; [apply sep_soft | intros _].
  apply bind_soft; [apply delimitedList_soft; [apply item_soft | apply sep_soft] | intros l].
  apply bind_soft; [apply eol_soft | intros _]. apply ret_soft.
Qed.

Lemma trns_entry_soft : fails_softly trns_entry.
Proof.
  unfold trns_entry. apply And_soft.
  apply bind_soft; [apply Suppress_soft, Literal_soft | intros _].
  apply bind_soft; [apply sep_soft | intros _].
  apply bind_soft; [apply delimitedList_soft; [apply item_soft | apply sep_soft] | intros l].
  apply bind_soft; [apply eol_soft | intros _].
  apply bind_soft; [apply OneOrMore_soft, spl_entry_soft | intros spl].
  apply bind_soft; [apply Suppress_soft, Literal_soft | intros _].
  apply bind_soft; [apply eol_soft | intros _]. apply ret_soft.
Qed.

(** An empty field: the text starts with a tab, CR or LF, or is at its
    end. *)
Definition at_empty_field (s : string) : Prop := fst (field_run s) = EmptyString.

Lemma item_at_empty_field s : at_empty_field s -> item s = Raise IndexError.
Proof.
  unfold at_empty_field, item. destruct (field_run s) as [tok rest]. cbn.
  by intros ->.
Qed.

End IifParserFacts.

(** * Further properties of the parser *)

Module IifParserExtras.
Import IifParser IifParserFacts.

Lemma last_char_app_one s c : Py.last_char (s +:+ String c EmptyString) = Some c.
Proof.
  induction s as [| a s IH]; [done |].
  simpl. rewrite IH. destruct s; reflexivity.
Qed.

Lemma drop_last_app_one s c : Py.drop_last (s +:+ String c EmptyString) = s.
Proof.
  induction s as [| a s IH]; [done |].
  simpl. rewrite IH. destruct s; reflexivity.
Qed.

Definition is_quote (q : ascii) : Prop := q = DQUOTE \/ q = SQUOTE.

(** X1.  [dropQuotes] gives back the text between a pair of matching
    quotes, whatever that text is. *)
Theorem dropQuotes_strips_matching_quotes (q : ascii) (s : string) :
  is_quote q ->
  dropQuotes (String q (s +:+ String q EmptyString)) = Ok (Some s).
Proof.
  intros Hq. unfold dropQuotes.
  replace (String q (s +:+ String q EmptyString))
    with ((String q s) +:+ String q EmptyString) by reflexivity.
  rewrite last_char_app_one.
  replace ((String q s) +:+ String q EmptyString)
    with (String q (s +:+ String q EmptyString)) by reflexivity.
  rewrite drop_last_app_one.
  destruct Hq as [-> | ->]; reflexivity.
Qed.

Lemma dropQuotes_strips_matching_quotes_witness :
  dropQuotes (String SQUOTE ("Joe's" +:+ String SQUOTE EmptyString)) = Ok (Some "Joe's").
Proof. apply dropQuotes_strips_matching_quotes. right. reflexivity. Defined.

(** X2.  [dropQuotes] raises on the empty token and on no other: what it
    raises there is [IndexError]. *)
Theorem dropQuotes_raises_iff_empty (tok : string) (e : exn) :
  dropQuotes tok = Raise e <-> tok = EmptyString /\ e = IndexError.
Proof.
  split.
  - destruct tok as [| c r]; [by intros [= <-] |].
    unfold dropQuotes.
    assert (exists l, Py.last_char (String c r) = Some l) as [l ->].
    { clear. revert c. induction r as [| a r IH]; intros c; [by exists c |].
      destruct (IH a) as [l Hl]. exists l. simpl in *. by rewrite Hl. }
    case_match; discriminate.
  - intros [-> ->]. reflexivity.
Qed.

Definition separator (c : ascii) : bool :=
  Ascii.eqb c TAB || Ascii.eqb c CR || Ascii.eqb c LF.

Lemma field_run_no_separator s :
  Py.any_char separator (fst (field_run s)) = false.
Proof.
  induction s as [| c r IH]; [done |].
  simpl. fold (separator c). destruct (separator c) eqn:Hc; [done |].
  destruct (field_run r) as [tok rest]. simpl in *. by rewrite Hc, IH.
Qed.

Lemma field_run_rest s :
  match snd (field_run s) with
  | EmptyString => True
  | String c _ => separator c = true
  end.
Proof.
  induction s as [| c r IH]; [done |].
  simpl. fold (separator c). destruct (separator c) eqn:Hc; [done |].
  destruct (field_run r) as [tok rest]. done.
Qed.

Lemma drop_last_no_separator s :
  Py.any_char separator s = false -> Py.any_char separator (Py.drop_last s) = false.
Proof.
  induction s as [| c r IH]; [done |].
  simpl. intros [Hc Hr]%orb_false_elim. destruct r; [done |].
  simpl. rewrite Hc. by apply IH.
Qed.

(** X3.  A field value read by [item] contains no tab, CR or LF, and the
    text after it is at its end or starts with one of the three. *)
Theorem item_value_has_no_separator (s v rest : string) :
  item s = Ok (v, rest) ->
  Py.any_char separator v = false /\
  match rest with
  | EmptyString => True
  | String c _ => separator c = true
  end.
Proof.
  unfold item. pose proof (field_run_no_separator s) as Htok.
  pose proof (field_run_rest s) as Hrest.
  destruct (field_run s) as [tok rest']. simpl in *.
  unfold dropQuotes. destruct tok as [| c r]; [done |].
  destruct (Py.last_char (String c r)); [| done].
  destruct (_ || _); intros Hitem; simplify_eq; split; try done.
  simpl in Htok. apply orb_false_elim in Htok as [_ Hr].
  by apply drop_last_no_separator.
Qed.

Lemma item_value_has_no_separator_witness :
  Py.any_char separator "-50.00" = false /\
  separator TAB = true.
Proof.
  apply (item_value_has_no_separator
           ("-50.00" +:+ String TAB "Grocery") "-50.00" (String TAB "Grocery")).
  reflexivity.
Defined.

(** *** What [ok] results of the elements look like *)

Lemma bind_Ok {A B} (p : parser A) (k : A -> parser B) s b r :
  (p ≫= k) s = Ok (b, r) -> exists a r1, p s = Ok (a, r1) /\ k a r1 = Ok (b, r).
Proof.
  unfold mbind, parser_bind. destruct (p s) as [[a r1] | e]; [eauto | done].
Qed.

Lemma And_Ok {A} (body : parser A) s a r : And body s = Ok (a, r) -> body s = Ok (a, r).
Proof. unfold And. destruct (body s) as [[a' r'] | []]; done. Qed.

Lemma repeat_element_Forall {A} (P : A -> Prop) (p : parser A) :
  (forall s a r, p s = Ok (a, r) -> P a) ->
  forall fuel s l r, repeat_element fuel p s = Ok (l, r) -> Forall P l.
Proof.
  intros Hp. induction fuel as [| fuel IH]; intros s l r; cbn.
  - intros [= <- <-]. constructor.
  - destruct (p s) as [[a r1] | e] eqn:Hps.
    + destruct (repeat_element fuel p r1) as [[l1 r2] | e] eqn:Hrep; [| done].
      intros [= <- <-]. constructor; [by eapply Hp | by eapply IH].
    + destruct e; intros H; simplify_eq; constructor.
Qed.

Lemma delimitedList_Forall {A} (P : A -> Prop) (p : parser A) (sp : parser unit) :
  (forall s a r, p s = Ok (a, r) -> P a) ->
  forall s l r, delimitedList p sp s = Ok (l, r) -> Forall P l.
Proof.
  intros Hp s l r Hl. unfold delimitedList in Hl. apply And_Ok in Hl.
  apply bind_Ok in Hl as (a & r1 & Ha & Hl).
  apply bind_Ok in Hl as (l1 & r2 & Hl1 & Hl).
  injection Hl as <- <-. constructor; [by eapply Hp |].
  eapply (repeat_element_Forall P); [| exact Hl1].
  intros s' a' r' Hstep. apply And_Ok, bind_Ok in Hstep as (? & ? & _ & Hstep).
  by eapply Hp.
Qed.

Lemma oneOf_In keys : forall s k r, oneOf keys s = Ok (k, r) -> In k keys.
Proof.
  induction keys as [| k0 keys IH]; intros s k r; cbn; [done |].
  destruct (Py.startswith k0 s); [intros [= <- <-]; by left | intros H; right; by eapply IH].
Qed.

(** The columns a header may declare for the parent records. *)
Definition known_column (c : string) : Prop := In c (map fst trns_items).

Lemma trns_header_columns_known iif columns rest :
  trns_header iif = Ok (columns, rest) -> Forall known_column (fst columns).
Proof.
  intros Hh. unfold trns_header in Hh. apply And_Ok in Hh.
  apply bind_Ok in Hh as (? & ? & _ & Hh).
  apply bind_Ok in Hh as (? & ? & _ & Hh).
  apply bind_Ok in Hh as (tf & ? & Htf & Hh).
  apply bind_Ok in Hh as (? & ? & _ & Hh).
  apply bind_Ok in Hh as (? & ? & _ & Hh).
  apply bind_Ok in Hh as (? & ? & _ & Hh).
  apply bind_Ok in Hh as (sf & ? & Hsf & Hh).
  apply bind_Ok in Hh as (? & ? & _ & Hh).
  apply bind_Ok in Hh as (? & ? & _ & Hh).
  apply bind_Ok in Hh as (? & ? & _ & Hh).
  injection Hh as <- <-. cbn.
  eapply (delimitedList_Forall known_column); [| exact Htf].
  intros s a r. apply oneOf_In.
Qed.

Lemma parse_columns_known iif block :
  parse iif = Ok block -> Forall known_column (TRNS_FLDS block).
Proof.
  unfold parse. destruct (trns_entries iif) as [[b r] | e] eqn:Hp; [| done].
  intros [= <-]. unfold trns_entries in Hp. apply And_Ok in Hp.
  apply bind_Ok in Hp as ([tf sf] & r1 & Hh & Hp).
  apply bind_Ok in Hp as (trns & r2 & _ & Hp).
  injection Hp as <- <-. cbn.
  by apply trns_header_columns_known in Hh.
Qed.

(** *** [get_txn_list] *)

Lemma trns_item_known c : known_column c -> exists name, trns_item c = Ok name.
Proof.
  unfold known_column. cbn. intros H.
  repeat (destruct H as [<- | H]; [eexists; vm_compute; reflexivity |]). done.
Qed.

Lemma fill_txn_fits fields : forall trn i t,
  Forall known_column fields ->
  i + length trn <= length fields ->
  exists t', fill_txn fields i trn t = Ok t'.
Proof.
  induction trn as [| fld rest IH]; intros i t Hknown Hlen; cbn; [eauto |].
  cbn in Hlen.
  destruct (fields !! i) as [column |] eqn:Hcol.
  - assert (known_column column) as Hk by (by eapply Forall_lookup_1).
    destruct (trns_item_known _ Hk) as [name ->]. cbn.
    apply IH; [done | lia].
  - apply lookup_ge_None in Hcol. lia.
Qed.

Lemma fill_txn_overflow fields : forall trn i t,
  Forall known_column fields ->
  i <= length fields ->
  length fields < i + length trn ->
  fill_txn fields i trn t = Raise IndexError.
Proof.
  induction trn as [| fld rest IH]; intros i t Hknown Hi Hlen; cbn in *; [lia |].
  destruct (fields !! i) as [column |] eqn:Hcol; [| done].
  assert (known_column column) as Hk by (by eapply Forall_lookup_1).
  destruct (trns_item_known _ Hk) as [name ->]. cbn.
  apply lookup_lt_Some in Hcol. apply IH; [done | lia | lia].
Qed.

(** X4.  For a document that parses, if no record has more values than the
    header declares columns, [get_txn_list] returns one transaction for each
    record.  Records with fewer values than columns are accepted. *)
Theorem get_txn_list_one_per_record (iif : string) (block : trns_block) :
  parse iif = Ok block ->
  Forall (fun r => length (TRN r) <= length (TRNS_FLDS block)) (TRNS block) ->
  exists txn_list, get_txn_list block = Ok txn_list /\
                   length txn_list = length (TRNS block).
Proof.
  intros Hknown%parse_columns_known Hfit. unfold get_txn_list.
  induction Hfit as [| r rest Hr _ IH]; cbn; [eauto |].
  destruct (fill_txn_fits (TRNS_FLDS block) (TRN r) 0 ∅ Hknown Hr) as [t ->]. cbn.
  destruct IH as (l & -> & Hlen). cbn. eexists. split; [done |]. cbn. by rewrite Hlen.
Qed.

(** X5.  For a document that parses, a record with more values than the
    header declares columns makes [get_txn_list] raise [IndexError]. *)
Theorem get_txn_list_too_many_values (iif : string) (block : trns_block) :
  parse iif = Ok block ->
  Exists (fun r => length (TRNS_FLDS block) < length (TRN r)) (TRNS block) ->
  get_txn_list block = Raise IndexError.
Proof.
  intros Hknown%parse_columns_known Hbig. unfold get_txn_list.
  induction Hbig as [r rest Hr | r rest _ IH]; cbn.
  - rewrite fill_txn_overflow; [done | done | lia | done].
  - destruct (Nat.le_gt_cases (length (TRN r)) (length (TRNS_FLDS block))) as [Hfit | Hover].
    + destruct (fill_txn_fits (TRNS_FLDS block) (TRN r) 0 ∅ Hknown Hfit) as [t ->]. cbn.
      by rewrite IH.
    + rewrite fill_txn_overflow; [done | done | lia | done].
Qed.

End IifParserExtras.

Lemma get_txn_list_one_per_record_witness :
  exists txn_list,
    IifParser.get_txn_list
      {| IifParser.TRNS_FLDS := ["DATE"; "AMOUNT"; "MEMO"];
         IifParser.SPL_FLDS := ["DATE"; "AMOUNT"];
         IifParser.TRNS :=
           [{| IifParser.TRN := ["03/25/2016"; "-50.00"];
               IifParser.SPL := [["03/25/2016"; "50.00"]] |}] |} = Ok txn_list /\
    length txn_list = 1.
Proof.
  apply (IifParserExtras.get_txn_list_one_per_record statement_with_empty_last_field).
  - vm_compute. reflexivity.
  - repeat constructor.
Defined.

Lemma get_txn_list_too_many_values_witness :
  IifParser.get_txn_list
    {| IifParser.TRNS_FLDS := ["DATE"; "AMOUNT"; "MEMO"];
       IifParser.SPL_FLDS := ["DATE"; "AMOUNT"];
       IifParser.TRNS :=
         [{| IifParser.TRN := ["03/25/2016"; "-50.00"; "Grocery"; "X"];
             IifParser.SPL := [["03/25/2016"; "50.00"]] |}] |} = Raise IndexError.
Proof.
  apply (IifParserExtras.get_txn_list_too_many_values statement_with_extra_value).
  - vm_compute. reflexivity.
  - apply Exists_cons_hd. cbn. lia.
Defined.

(** * Further properties of pass 1 *)

Section PassOne.
Context `{Ext : Externals}.

Lemma _check_date_format_flags self p d self' :
  _check_date_format self p d = Ok self' ->
  (dayfirst self = true -> dayfirst self' = true) /\ curdef self' = curdef self.
Proof.
  unfold _check_date_format. repeat case_match; try done; by intros [= <-].
Qed.

Lemma _guess_formats_step_flags self t self' :
  _guess_formats_step self t = Ok self' ->
  (dayfirst self = true -> dayfirst self' = true) /\
  (forall c, curdef self = Some c -> curdef self' = Some c).
Proof.
  unfold _guess_formats_step. cbn.
  destruct (_parse_date _ _) as [p | e]; cbn; [| done].
  destruct (_check_date_format self p _) as [self1 | e] eqn:Hc; cbn; [| done].
  apply _check_date_format_flags in Hc as [Hd Hcur].
  destruct (bool_decide (curdef self1 = None)) eqn:Hnone; cbn.
  - apply bool_decide_eq_true in Hnone.
    case_match; intros [= <-]; cbn; (split; [done |]); intros c; congruence.
  - intros [= <-]. split; [done |]. intros c. congruence.
Qed.

Lemma _guess_formats_flags txn_list : forall self self',
  _guess_formats self txn_list = Ok self' ->
  (dayfirst self = true -> dayfirst self' = true) /\
  (forall c, curdef self = Some c -> curdef self' = Some c).
Proof.
  induction txn_list as [| t rest IH]; intros self self'; cbn.
  - by intros [= <-].
  - destruct (_guess_formats_step self t) as [self1 | e] eqn:Hs; cbn; [| done].
    intros Hrest. apply _guess_formats_step_flags in Hs as [Hd Hc].
    apply IH in Hrest as [Hd' Hc']. split; [auto |]. intros c Hcur. auto.
Qed.

(** X6.  Pass 1 never takes back what it has: a day-first flag that is set,
    by the caller or by an earlier transaction, stays set, and a default
    currency that is configured or found is never replaced. *)
Theorem guess_formats_flags_stick txn_list : forall self self',
  _guess_formats self txn_list = Ok self' ->
  (dayfirst self = true -> dayfirst self' = true) /\
  (forall c, curdef self = Some c -> curdef self' = Some c).
Proof. apply _guess_formats_flags. Qed.

(** A date that shows the day first: a number from 13 to 31, then something
    that is not a digit. *)
Definition shows_day_first (t : txn) : Prop :=
  exists d n, t !! "Date" = Some d /\ Py.search_nondigit d = true /\
              Py.int (Py.leading_digits d) = Some n /\ (13 <= n <= 31)%Z.

Lemma _guess_formats_step_day_first self t self' :
  shows_day_first t ->
  _guess_formats_step self t = Ok self' -> dayfirst self' = true.
Proof.
  intros (d & n & Hd & Hnd & Hn & Hrange). unfold _guess_formats_step, get.
  rewrite Hd. cbn.
  destruct (_parse_date d false) as [p | e] eqn:Hp; cbn; [| done].
  destruct p as [| dt].
  { apply _parse_date_unknown in Hp. subst d. discriminate. }
  unfold _check_date_format. rewrite Hnd, Hn.
  replace ((13 <=? n) && (n <=? 31))%Z with true by (symmetry; apply andb_true_iff; lia).
  cbn. case_match; by intros [= <-].
Qed.

(** X7.  When pass 1 returns, one date anywhere in the statement whose
    leading number lies in 13..31 has set the day-first flag for the whole
    statement. *)
Theorem guess_formats_detects_day_first txn_list : forall self self',
  Exists shows_day_first txn_list ->
  _guess_formats self txn_list = Ok self' -> dayfirst self' = true.
Proof.
  intros self self' Hex. revert self.
  induction Hex as [t rest Ht | t rest _ IH]; intros self; cbn.
  - destruct (_guess_formats_step self t) as [self1 | e] eqn:Hs; cbn; [| done].
    intros Hrest. apply (_guess_formats_step_day_first _ _ _ Ht) in Hs.
    by apply (_guess_formats_flags rest self1 self' Hrest).
  - destruct (_guess_formats_step self t) as [self1 | e] eqn:Hs; cbn; [| done].
    apply IH.
Qed.

End PassOne.

Lemma guess_formats_flags_stick_witness :
  (dayfirst (set_dayfirst true (set_curdef (Some "GBP") (Sample.converter "CHECKING")))
   = true ->
   dayfirst (set_dayfirst true (set_curdef (Some "GBP") (Sample.converter "CHECKING")))
   = true) /\
  (forall c,
     curdef (set_dayfirst true (set_curdef (Some "GBP") (Sample.converter "CHECKING")))
     = Some c ->
     curdef (set_dayfirst true (set_curdef (Some "GBP") (Sample.converter "CHECKING")))
     = Some c).
Proof.
  apply (guess_formats_flags_stick (Ext := Sample.externals)
           [<["Currency" := "^EUR"]> scenario_A]).
  vm_compute. reflexivity.
Defined.

Lemma guess_formats_detects_day_first_witness :
  dayfirst (set_dayfirst true (Sample.converter "CHECKING")) = true.
Proof.
  apply (guess_formats_detects_day_first (Ext := Sample.externals)
           [scenario_A; <["Date" := "25/03/2016"]> ∅] (Sample.converter "CHECKING")).
  - apply Exists_cons_tl, Exists_cons_hd.
    exists "25/03/2016", 25%Z. repeat split; try reflexivity; lia.
  - vm_compute. reflexivity.
Defined.

(** * Further properties of pass 2 *)

Arguments Py.strip : simpl never.
Arguments Py.startswith : simpl never.
Arguments Py.search_digits : simpl never.
Arguments Py.upper : simpl never.
Arguments Py.contains : simpl never.

(** [m] run on [t] returns, with a result and a transaction that satisfy [Q]. *)
Definition returns {A} (m : M A) (t : txn) (Q : A -> txn -> Prop) : Prop :=
  exists a t', m t = (Ok a, t') /\ Q a t'.

Lemma returns_bind {A B} (m : M A) (k : A -> M B) t Q :
  returns m t (fun a t1 => returns (k a) t1 Q) -> returns (m ≫= k) t Q.
Proof.
  intros (a & t1 & Hm & b & t2 & Hk & HQ). exists b, t2. split; [| done].
  unfold mbind, M_bind. by rewrite Hm.
Qed.

Lemma returns_weaken {A} (m : M A) t (R Q : A -> txn -> Prop) :
  returns m t R -> (forall a t', R a t' -> Q a t') -> returns m t Q.
Proof. intros (a & t' & Hm & HR) HRQ. exists a, t'. auto. Qed.

Lemma returns_read key dflt t (Q : string -> txn -> Prop) :
  Q (get t key dflt) t -> returns (read key dflt) t Q.
Proof. intros HQ. by exists (get t key dflt), t. Qed.

Lemma returns_has key t (Q : bool -> txn -> Prop) :
  Q (bool_decide (is_Some (t !! key))) t -> returns (has key) t Q.
Proof. intros HQ. by eexists _, t. Qed.

Lemma returns_store key v t (Q : unit -> txn -> Prop) :
  Q tt (<[key := v]> t) -> returns (store key v) t Q.
Proof. intros HQ. by eexists tt, _. Qed.

Lemma returns_skip t (Q : unit -> txn -> Prop) : Q tt t -> returns skip t Q.
Proof. intros HQ. by exists tt, t. Qed.

Lemma returns_append key suffix v t (Q : unit -> txn -> Prop) :
  t !! key = Some v -> Q tt (<[key := v +:+ suffix]> t) ->
  returns (append key suffix) t Q.
Proof. intros Hv HQ. eexists tt, _. unfold append. rewrite Hv. done. Qed.

Ltac step :=
  lazymatch goal with
  | |- returns (_ ≫= _) _ _ => apply returns_bind
  | |- returns (read _ _) _ _ => apply returns_read
  | |- returns (has _) _ _ => apply returns_has
  | |- returns (store _ _) _ _ => apply returns_store
  | |- returns skip _ _ => apply returns_skip
  | |- returns (if ?b then _ else _) _ _ => destruct b eqn:?
  end.

Section PassTwo.
Context `{Ext : Externals}.

(** X8.  On a credit-card account, a number that is present is removed from
    the transaction, whatever it is. *)
Theorem clean_txn_number_drops_on_credit_card self (t : txn) n :
  accttype self = "CREDITCARD" ->
  t !! "Number" = Some n ->
  Py.strip n <> "UNKNOWN" ->
  _clean_txn_number self t = (Ok tt, delete "Number" t).
Proof.
  intros Hacct Hn Hne. unfold _clean_txn_number. unfold_M. unfold get.
  rewrite Hn, Hacct. cbn.
  destruct (String.eqb_spec (Py.strip n) "UNKNOWN") as [| _]; [done |].
  rewrite ?String.eqb_refl. cbn.
  destruct (String.eqb (Py.strip n) "N/A"), (Py.startswith "XXXX-XXXX-XXXX" (Py.strip n));
    by rewrite Hn.
Qed.

Lemma _clean_txn_number_frame self (t : txn) :
  exists t', _clean_txn_number self t = (Ok tt, t') /\
             forall k, k <> "Number" -> k <> "Type" -> t' !! k = t !! k.
Proof.
  unfold _clean_txn_number. unfold_M. unfold get.
  destruct (t !! "Number") as [n |] eqn:Hn; cbn.
  - repeat (match goal with |- context [if ?b then _ else _] => destruct b end);
      try discriminate; eexists; (split; [reflexivity |]); intros k Hk1 Hk2;
      by rewrite ?lookup_delete_ne, ?lookup_insert_ne.
  - eexists. split; [reflexivity | done].
Qed.

(** X9.  The check-number step never raises: it deletes the number only
    when there is one.  It changes no field but Number and Type. *)
Theorem clean_txn_number_returns self (t : txn) :
  exists t', _clean_txn_number self t = (Ok tt, t') /\
             forall k, k <> "Number" -> k <> "Type" -> t' !! k = t !! k.
Proof. apply _clean_txn_number_frame. Qed.

Lemma in_txn_types_In key : in_txn_types key = true -> In key (map fst txn_types).
Proof.
  unfold in_txn_types. intros (kv & Hin & Heq)%existsb_exists.
  apply String.eqb_eq in Heq as <-. by apply in_map.
Qed.

Lemma _clean_txn_type_outcome (t : txn) :
  _clean_txn_type t = (Ok tt, t) \/
  exists key, In key (map fst txn_types) /\
              _clean_txn_type t = (Ok tt, <["Type" := key]> t).
Proof.
  unfold _clean_txn_type. unfold_M.
  destruct (in_txn_types (Py.upper (get t "Type" "UNKNOWN"))) eqn:Hin.
  - right. eexists. split; [by apply in_txn_types_In |]. reflexivity.
  - destruct (List.find _ _) as [typestr |] eqn:Hfind.
    + right. exists typestr. split; [| reflexivity].
      by apply find_some in Hfind as [? _].
    + by left.
Qed.


Lemma _clean_txn_payee_outcome self (t : txn) :
  exists t', _clean_txn_payee self t = (Ok tt, t') /\
             is_Some (t' !! "Type") /\
             (forall k, k <> "Payee" -> k <> "Type" -> t' !! k = t !! k) /\
             forall m, t !! "Memo" = Some m -> m <> "UNKNOWN" ->
                       exists p, t' !! "Payee" = Some (p +:+ " (" +:+ m +:+ ")").
Proof.
  enough (returns (_clean_txn_payee self) t (fun _ t' =>
            is_Some (t' !! "Type") /\
            (forall k, k <> "Payee" -> k <> "Type" -> t' !! k = t !! k) /\
            forall m, t !! "Memo" = Some m -> m <> "UNKNOWN" ->
                       exists p, t' !! "Payee" = Some (p +:+ " (" +:+ m +:+ ")")))
    as ([] & t' & Hrun & HQ) by eauto.
  unfold _clean_txn_payee. do 6 (step; step).
  set (memo := get t "Memo" "UNKNOWN").
  set (sign := _txn_sign (get t "Amount" "UNKNOWN")).
  (* the payee chain *)
  apply returns_bind.
  apply (returns_weaken _ _ (fun _ t1 =>
           (forall k, k <> "Payee" -> k <> "Type" -> t1 !! k = t !! k) /\
           ((memo =? "UNKNOWN") = false -> is_Some (t1 !! "Payee")))).
  { repeat step; (split; [intros k Hk1 Hk2; by rewrite ?lookup_insert_ne by done |]);
      intros Hmemo; repeat (rewrite lookup_insert_eq || rewrite lookup_insert_ne by done);
      eauto; try (rewrite Hmemo in *; discriminate).
    unfold get in *. destruct (t !! "Payee"); [eauto | discriminate]. }
  intros [] t1 (Hframe1 & Hpayee1).
  step. step.
  apply returns_bind.
  apply (returns_weaken _ _ (fun _ t2 =>
           is_Some (t2 !! "Type") /\
           (forall k, k <> "Payee" -> k <> "Type" -> t2 !! k = t !! k) /\
           ((memo =? "UNKNOWN") = false -> is_Some (t2 !! "Payee")))).
  { destruct (bool_decide (is_Some (t1 !! "Type"))) eqn:Htype.
    - apply bool_decide_eq_true in Htype. cbn. by step.
    - subst sign. unfold _txn_sign.
      destruct (Py.startswith "-" (get t "Amount" "UNKNOWN")); cbn; step;
        (split; [by rewrite lookup_insert_eq |]);
        (split; [intros k Hk1 Hk2; by rewrite lookup_insert_ne, Hframe1 by done |]);
        by rewrite lookup_insert_ne. }
  intros [] t2 (Htype2 & Hframe2 & Hpayee2).
  step.
  - apply negb_true_iff in Heqb. destruct (Hpayee2 Heqb) as [p Hp].
    eapply returns_append; [exact Hp |].
    split; [by rewrite lookup_insert_ne |].
    split; [intros k Hk1 Hk2; by rewrite lookup_insert_ne, Hframe2 by done |].
    intros m Hm _. exists p. rewrite lookup_insert_eq.
    subst memo. unfold get. by rewrite Hm.
  - step. split; [done |]. split; [done |].
    intros m Hm Hne. apply negb_false_iff in Heqb. subst memo. unfold get in Heqb.
    rewrite Hm in Heqb. cbn in Heqb. by apply String.eqb_eq in Heqb.
Qed.

(** X11.  The payee step never raises: when it appends the memo, a payee
    is there to append to.  After it the transaction has a type; a memo
    that is present ends the payee, in parentheses; no field but Payee and
    Type has changed. *)
Theorem clean_txn_payee_returns self (t : txn) :
  exists t', _clean_txn_payee self t = (Ok tt, t') /\
             is_Some (t' !! "Type") /\
             (forall k, k <> "Payee" -> k <> "Type" -> t' !! k = t !! k) /\
             forall m, t !! "Memo" = Some m -> m <> "UNKNOWN" ->
                       exists p, t' !! "Payee" = Some (p +:+ " (" +:+ m +:+ ")").
Proof. apply _clean_txn_payee_outcome. Qed.

End PassTwo.

Lemma clean_txn_number_drops_on_credit_card_witness :
  _clean_txn_number (Sample.converter "CREDITCARD") (<["Number" := "20160325001"]> ∅)
  = (Ok tt, delete "Number" (<["Number" := "20160325001"]> ∅)).
Proof.
  apply (clean_txn_number_drops_on_credit_card _ _ "20160325001").
  - reflexivity.
  - reflexivity.
  - vm_compute. discriminate.
Defined.

Arguments Py.remove_first : simpl never.
Arguments Py.last_char : simpl never.
Arguments Py.drop_last : simpl never.

Section PassTwoB.
Context `{Ext : Externals}.

(** The three ways [_clean_txn_amount] ends. *)
Lemma _clean_txn_amount_outcome (t : txn) :
  _clean_txn_amount t = (Raise ValueError, t) \/
  _clean_txn_amount t = (Raise IndexError, t) \/
  exists a, _clean_txn_amount t = (Ok tt, <["Amount" := a]> t).
Proof.
  unfold _clean_txn_amount. unfold_M.
  destruct (_ || _); [by left |]. right.
  destruct (Py.last_char _); [right; eauto | by left].
Qed.

(** X12.  [_clean_txn] either returns, and then the transaction has a date,
    an amount and a type, or raises.  What it raises is [ValueError],
    [IndexError], or the exception that the date library raised at the first
    attempt on the stripped date; it raises nothing else. *)
Theorem clean_txn_outcome self (t : txn) :
  (exists t', _clean_txn self t = (Ok tt, t') /\
              is_Some (t' !! "Date") /\ is_Some (t' !! "Amount") /\
              is_Some (t' !! "Type")) \/
  (exists e t', _clean_txn self t = (Raise e, t') /\
                (e = ValueError \/ e = IndexError \/
                 dateutil_parse (Py.strip (get t "Date" "UNKNOWN")) (dayfirst self)
                 = Raise e)).
Proof.
  unfold _clean_txn. unfold_M.
  destruct (_clean_txn_date_outcome self t) as [[v ->] | (e & -> & He)].
  2:{ right. exists e, t. split; [done |].
      destruct (_parse_date_exn _ _ _ He); auto. }
  destruct (_clean_txn_amount_outcome (<["Date" := v]> t)) as [-> | [-> | [a ->]]];
    [right; eauto 6 | right; eauto 6 |].
  destruct (_clean_txn_number_frame self (<["Amount" := a]> (<["Date" := v]> t)))
    as (t3 & -> & Hframe3).
  assert (is_Some (t3 !! "Date") /\ is_Some (t3 !! "Amount")) as [Hd3 Ha3].
  { rewrite !Hframe3 by done. rewrite lookup_insert_eq.
    rewrite lookup_insert_ne by done. rewrite lookup_insert_eq. eauto. }
  assert (exists t4, _clean_txn_type t3 = (Ok tt, t4) /\
                     is_Some (t4 !! "Date") /\ is_Some (t4 !! "Amount"))
    as (t4 & -> & Hd4 & Ha4).
  { destruct (_clean_txn_type_outcome t3) as [-> | (key & _ & ->)]; [eauto |].
    eexists. split; [done |]. by rewrite !lookup_insert_ne. }
  destruct (_clean_txn_payee_outcome self t4) as (t5 & -> & Hty5 & Hframe5 & _).
  left. exists t5. rewrite !Hframe5 by done. auto.
Qed.

(** X13.  On a checking or savings account, a transaction with a number
    and no payee gets the payee "Check #" followed by the number and the type
    CHECK, whatever type it had: the check rule comes first in the payee
    chain. *)
Theorem clean_txn_payee_check_number self (t : txn) n :
  t !! "Payee" = None ->
  t !! "Memo" = None ->
  t !! "Number" = Some n ->
  n <> "UNKNOWN" ->
  accttype self = "CHECKING" \/ accttype self = "SAVINGS" ->
  _clean_txn_payee self t
  = (Ok tt, <["Type" := "CHECK"]> (<["Payee" := "Check #" +:+ n]> t)).
Proof.
  intros Hpayee Hmemo Hn Hne Hacct.
  unfold _clean_txn_payee. unfold_M. unfold get. rewrite Hpayee, Hmemo, Hn. cbn.
  destruct (String.eqb_spec n "UNKNOWN") as [| _]; [done |]. cbn.
  replace ((accttype self =? "CHECKING") || (accttype self =? "SAVINGS")) with true
    by (destruct Hacct as [-> | ->]; reflexivity).
  rewrite lookup_insert_eq. rewrite bool_decide_eq_true_2 by eauto. reflexivity.
Qed.

(** X14.  A minus sign at the end of the amount is moved to the front
    before the amount is handed to the decimal library. *)
Theorem clean_txn_amount_trailing_minus (t : txn) (a body : string) :
  t !! "Amount" = Some a ->
  a <> "-" -> a <> " " -> a <> "00.00" ->
  Py.remove_first "$" (Py.strip a) = body +:+ "-" ->
  _clean_txn_amount t =
  (Ok tt, <["Amount" := default ("-" +:+ body) (decimal_quantize ("-" +:+ body))]> t).
Proof.
  intros Ha H1 H2 H3 Hclean.
  unfold _clean_txn_amount. unfold_M. unfold get. rewrite Ha. cbn.
  destruct (String.eqb_spec a "-") as [| _]; [done |].
  destruct (String.eqb_spec a " ") as [| _]; [done |].
  destruct (String.eqb_spec a "00.00") as [| _]; [done |]. cbn.
  rewrite Hclean, IifParserExtras.last_char_app_one, IifParserExtras.drop_last_app_one.
  reflexivity.
Qed.

(** X15.  Take a transaction whose date step succeeds and whose amount is
    not the sentinel " ".  If nothing is left of the amount after stripping
    white space and one dollar sign, [_clean_txn] raises [IndexError] on the
    last character of the empty string.  [_clean_txn_list] catches
    [ValueError] only: its loop and the whole pass end with the
    [IndexError]. *)
Theorem blank_amount_aborts self ix (h : heap) (r : ref) (t t1 : txn) (rest : list ref)
    (a : string) :
  h !! r = Some t ->
  t !! "Amount" = Some a ->
  a <> " " ->
  Py.remove_first "$" (Py.strip a) = EmptyString ->
  _clean_txn_date self t = (Ok tt, t1) ->
  _clean_txn self t = (Raise IndexError, t1) /\
  _clean_txn_loop self ix h (r :: rest) = Raise IndexError /\
  _clean_txn_list self h (r :: rest) = Raise IndexError.
Proof.
  intros Hr Ha H2 Hclean Hdate.
  assert (a <> "-") as H1 by (intros ->; discriminate Hclean).
  assert (a <> "00.00") as H3 by (intros ->; discriminate Hclean).
  assert (_clean_txn self t = (Raise IndexError, t1)) as Hrun.
  { unfold _clean_txn. unfold_M. rewrite Hdate.
    destruct (_clean_txn_date_outcome self t) as [[v Hv] | (e & Hv & _)];
      rewrite Hv in Hdate; [| done].
    injection Hdate as <-.
    unfold _clean_txn_amount. unfold_M. unfold get.
    rewrite lookup_insert_ne by done. rewrite Ha. cbn.
    destruct (String.eqb_spec a "-") as [| _]; [done |].
    destruct (String.eqb_spec a " ") as [| _]; [done |].
    destruct (String.eqb_spec a "00.00") as [| _]; [done |]. cbn.
    by rewrite Hclean. }
  split; [done |]. rewrite <- (deref_Some _ _ _ Hr) in Hrun.
  split; [by eapply _clean_txn_loop_abort | by eapply _clean_txn_list_abort].
Qed.
End PassTwoB.

Lemma clean_txn_payee_check_number_witness :
  _clean_txn_payee (Sample.converter "CHECKING")
    (<["Number" := "0452"]> (<["Type" := "INT"]> ∅))
  = (Ok tt, <["Type" := "CHECK"]> (<["Payee" := "Check #" +:+ "0452"]>
              (<["Number" := "0452"]> (<["Type" := "INT"]> ∅)))).
Proof.
  apply clean_txn_payee_check_number; try reflexivity; [discriminate | by left].
Defined.

Lemma clean_txn_amount_trailing_minus_witness :
  _clean_txn_amount (Ext := Sample.externals) (<["Amount" := "100.00-"]> ∅)
  = (Ok tt, <["Amount" := default ("-" +:+ "100.00")
                             (@decimal_quantize Sample.externals ("-" +:+ "100.00"))]>
              (<["Amount" := "100.00-"]> ∅)).
Proof.
  apply (clean_txn_amount_trailing_minus (Ext := Sample.externals) _ "100.00-" "100.00");
    try discriminate; reflexivity.
Defined.

Example trailing_minus_normalized :
  (_clean_txn_amount (Ext := Sample.externals) (<["Amount" := "100.00-"]> ∅)).2 !! "Amount"
  = Some "-100.00".
Proof. vm_compute. reflexivity. Qed.

Lemma blank_amount_aborts_witness :
  _clean_txn (Ext := Sample.externals) (Sample.converter "CHECKING")
    (<["Amount" := "$"]> ∅)
  = (Raise IndexError, <["Date" := "UNKNOWN"]> (<["Amount" := "$"]> ∅)) /\
  _clean_txn_loop (Ext := Sample.externals) (Sample.converter "CHECKING") ∅
    {[ 0 := <["Amount" := "$"]> ∅; 1 := scenario_A ]} [0; 1] = Raise IndexError /\
  _clean_txn_list (Ext := Sample.externals) (Sample.converter "CHECKING")
    {[ 0 := <["Amount" := "$"]> ∅; 1 := scenario_A ]} [0; 1] = Raise IndexError.
Proof.
  apply (blank_amount_aborts (Ext := Sample.externals) _ _ _ _ _ _ _ "$");
    try discriminate; reflexivity.
Defined.

(** Without the two conditions the amount step is not reached, or refuses
    with [ValueError]: the transaction is skipped and the pass returns. *)
Example blank_amount_after_bad_date :
  summary (_clean_txn_list (Ext := Sample.externals) (Sample.converter "CHECKING")
             {[ 0 := <["Date" := "99/99/9999"]> (<["Amount" := "$"]> ∅);
                1 := scenario_A ]} [0; 1])
  = Ok ([("20160325", 1)], Some "20160325", Some "20160325").
Proof. vm_compute. reflexivity. Qed.

(** * The index *)

Section Index.
Context `{Ext : Externals}.








Lemma deref_insert_eq (h : heap) (r : ref) (t : txn) : deref (<[r := t]> h) r = t.
Proof. unfold deref. by rewrite lookup_insert_eq. Qed.

Lemma deref_insert_ne (h : heap) (r r0 : ref) (t : txn) :
  r <> r0 -> deref (<[r := t]> h) r0 = deref h r0.
Proof. intros Hne. unfold deref. by rewrite lookup_insert_ne. Qed.














End Index.

(** The converter of scenario A after [_clean_txn_list], its one dict at
    address 0. *)
Definition indexed_A : IifConverter :=
  set_index (<["20160325" := [0]]> ∅)
    (Some "20160325") (Some "20160325") (Sample.converter "CHECKING").



(** The premises about the list are needed.  A dict that goes through
    [_clean_txn_list] a second time is rewritten where it is, and the bucket
    that holds it already sees the change: with a date library that also
    reads the normalized date, the payee of the indexed transaction has the
    memo appended once more. *)
Example second_pass_rewrites_indexed :
  let E := with_date Sample.externals "20160325" false
             (Ok {| year := 2016; month := 3; day := 25 |}) in
  match _clean_txn_list (Ext := E) indexed_A {[ 0 := normalized_A ]} [0] with
  | Ok (self', h') =>
      txns_by_date self' !! "20160325" = Some [0; 0] /\
      deref h' 0 !! "Payee" = Some "Grocery (Grocery) (Grocery)"
  | Raise _ => False
  end.
Proof. vm_compute. split; reflexivity. Qed.


(** * Properties of the output side *)

Definition key_of (tg : tag) : string :=
  match tg with
  | TRNTYPE => "Type" | DTPOSTED => "Date" | TRNAMT => "Amount"
  | CHECKNUM => "Number" | FITID => "ID" | NAME => "Payee"
  | MEMO => "Memo" | CATEGORY => "Category"
  end.

Lemma field_tags key tg f (t : txn) :
  map fst (field key tg f t) = if _check_field key t then [tg] else [].
Proof. unfold field. by destruct (_check_field key t). Qed.

(** X18.  [_ofx_txn] emits the fields in the order Type, Date, Amount,
    Number, ID, Payee, Memo, Category, and leaves out exactly those that the
    transaction lacks or holds blank. *)
Theorem ofx_txn_fields_in_order (t : txn) :
  map fst (_ofx_txn t) =
  List.filter (fun tg => _check_field (key_of tg) t)
    [TRNTYPE; DTPOSTED; TRNAMT; CHECKNUM; FITID; NAME; MEMO; CATEGORY].
Proof.
  unfold _ofx_txn. rewrite !map_app, !field_tags. cbn [List.filter key_of].
  repeat (match goal with |- context [_check_field ?k t] => destruct (_check_field k t) end);
    reflexivity.
Qed.

Lemma string_of_uint_digits d :
  Py.all_chars Py.isdigit (NilEmpty.string_of_uint d) = true.
Proof. induction d; cbn [NilEmpty.string_of_uint Py.all_chars]; try done; by rewrite IHd. Qed.

Lemma str_of_nat_inj n m : str_of_nat n = str_of_nat m -> n = m.
Proof.
  unfold str_of_nat. intros H. apply Unsigned.to_uint_inj.
  pose proof (NilEmpty.usu (Nat.to_uint n)) as Hn.
  pose proof (NilEmpty.usu (Nat.to_uint m)) as Hm.
  rewrite H in Hn. congruence.
Qed.

Lemma append_inv_head p a b : p +:+ a = p +:+ b -> a = b.
Proof. induction p as [| c p IH]; cbn; [done |]. intros [= H]. auto. Qed.

(** Two runs of digits that are each followed by a dash and agree as
    a whole agree themselves. *)
Lemma digits_before_dash a : forall a' x y,
  Py.all_chars Py.isdigit a = true -> Py.all_chars Py.isdigit a' = true ->
  a +:+ String "-" x = a' +:+ String "-" y -> a = a'.
Proof.
  induction a as [| c a IH]; intros [| c' a'] x y Ha Ha'; cbn in *; try done.
  - intros [= <- _]. done.
  - intros [= -> _]. done.
  - apply andb_true_iff in Ha as [_ Ha]. apply andb_true_iff in Ha' as [_ Ha'].
    intros [= <- H]. f_equal. by eapply IH.
Qed.

Lemma txn_id_index self d i j x y :
  txn_id self d i x = txn_id self d j y -> i = j.
Proof.
  unfold txn_id. intros H.
  do 6 apply append_inv_head in H.
  apply str_of_nat_inj.
  eapply digits_before_dash; [apply string_of_uint_digits | apply string_of_uint_digits |].
  exact H.
Qed.

Example escape_markup : Sax.escape "a<b & c>d" = "a&lt;b &amp; c&gt;d". Proof. reflexivity. Qed.
Example unescape_once : Sax.unescape "a&lt;b &amp;amp; c&gt;d" = "a<b &amp; c>d". Proof. reflexivity. Qed.
Example escape_unescape_payee : Sax.escape (Sax.unescape "AT&amp;T <x>") = "AT&amp;T &lt;x&gt;". Proof. reflexivity. Qed.


(** The ID under which a rendered transaction goes out. *)
Definition fitid (fields : list (tag * string)) : option string :=
  snd <$> List.find (fun f => match fst f with FITID => true | _ => false end) fields.

Lemma lstrip_app a c b :
  Py.isspace c = false -> Py.lstrip (a +:+ String c b) = Py.lstrip a +:+ String c b.
Proof.
  intros Hc. induction a as [| x a IH].
  - simpl. rewrite Hc. reflexivity.
  - change (String x a +:+ String c b) with (String x (a +:+ String c b)).
    simpl. destruct (Py.isspace x); [exact IH | reflexivity].
Qed.

Lemma rstrip_app a c b :
  Py.isspace c = false -> Py.rstrip (a +:+ String c b) = a +:+ String c (Py.rstrip b).
Proof.
  intros Hc. induction a as [| x a IH].
  - change (EmptyString +:+ String c b) with (String c b).
    change (EmptyString +:+ String c (Py.rstrip b)) with (String c (Py.rstrip b)).
    simpl. rewrite Hc. by destruct (Py.rstrip b).
  - change (String x a +:+ String c b) with (String x (a +:+ String c b)).
    change (String x a +:+ String c (Py.rstrip b))
      with (String x (a +:+ String c (Py.rstrip b))).
    simpl. rewrite IH. by destruct a.
Qed.

(** The ID as [_ofx_txn] prints it: white space can only go from the front
    of the organisation and from the end of the amount. *)
Lemma strip_txn_id self d i amt :
  Py.strip (txn_id self d i amt) =
  Py.lstrip (org self) +:+ "-" +:+ accttype self +:+ "-" +:+ d +:+ "-"
  +:+ str_of_nat i +:+ "-" +:+ Py.rstrip amt.
Proof.
  unfold Py.strip, txn_id.
  repeat match goal with
         | |- context [String ?c EmptyString +:+ ?x] =>
             change (String c EmptyString +:+ x) with (String c x)
         end.
  rewrite lstrip_app by done. by rewrite !rstrip_app by done.
Qed.

Lemma strip_txn_id_index self d i j x y :
  Py.strip (txn_id self d i x) = Py.strip (txn_id self d j y) -> i = j.
Proof.
  rewrite !strip_txn_id. intros H.
  do 6 apply append_inv_head in H.
  apply str_of_nat_inj.
  eapply digits_before_dash; [apply string_of_uint_digits | apply string_of_uint_digits |].
  exact H.
Qed.

Lemma fitid_ofx_txn self d i amt (t : txn) :
  fitid (_ofx_txn (<["ID" := txn_id self d i amt]> t)) = Some (Py.strip (txn_id self d i amt)).
Proof.
  assert (_check_field "ID" (<["ID" := txn_id self d i amt]> t) = true) as Hid.
  { unfold _check_field. rewrite lookup_insert_eq, strip_txn_id.
    by destruct (Py.lstrip (org self)). }
  unfold _ofx_txn, field. rewrite Hid. unfold get. rewrite lookup_insert_eq.
  repeat (match goal with |- context [_check_field ?k ?m] => destruct (_check_field k m) end);
    reflexivity.
Qed.

Lemma get_Some (t : txn) key dflt v : t !! key = Some v -> get t key dflt = v.
Proof. unfold get. by intros ->. Qed.

(** Assigning an ID leaves the dates of a bucket as they are, also where
    the bucket holds the same dict again. *)
Lemma dates_kept (h : heap) (r : ref) id d (bucket : list ref) :
  Forall (fun r0 => deref h r0 !! "Date" = Some d) bucket ->
  Forall (fun r0 => deref (<[r := <["ID" := id]> (deref h r)]> h) r0 !! "Date" = Some d) bucket.
Proof.
  intros H. eapply Forall_impl; [exact H |]. cbn.
  intros r0 Hd. destruct (decide (r = r0)) as [<- | Hne].
  - rewrite deref_insert_eq. by rewrite lookup_insert_ne.
  - by rewrite deref_insert_ne.
Qed.

Lemma _ofx_txns_bucket_frame self : forall bucket n (h : heap) r,
  ~ In r bucket -> fst (_ofx_txns_bucket self n bucket h) !! r = h !! r.
Proof.
  induction bucket as [| r0 rest IH]; intros n h r Hr; cbn; [done |].
  specialize (IH (n - 1) (<[r0 := <["ID" := txn_id self (get (deref h r0) "Date" "UNKNOWN") n
                                               (get (deref h r0) "Amount" "00.00")]>
                                    (deref h r0)]> h) r).
  destruct (_ofx_txns_bucket self (n - 1) rest _) as [h' out]. cbn in *.
  rewrite IH by tauto. apply lookup_insert_ne. intros ->. apply Hr. by left.
Qed.

(** The IDs that go out for a bucket carry the numbers from [n] down. *)
Lemma _ofx_txns_bucket_fitids self d : forall bucket n (h : heap),
  Forall (fun r => deref h r !! "Date" = Some d) bucket ->
  length bucket <= n ->
  Forall (fun out => exists i amt, fitid out = Some (Py.strip (txn_id self d i amt)) /\
                                   n - length bucket < i <= n)
    (snd (_ofx_txns_bucket self n bucket h)).
Proof.
  induction bucket as [| r rest IH]; intros n h Hd Hn; cbn; [constructor |].
  apply Forall_cons in Hd as [Ht Hrest]. cbn in Hn.
  rewrite !(get_Some _ _ "UNKNOWN" _ Ht).
  specialize (IH (n - 1) _ (dates_kept h r (txn_id self d n (get (deref h r) "Amount" "00.00"))
                              d rest Hrest) ltac:(lia)).
  destruct (_ofx_txns_bucket self (n - 1) rest _) as [h' out]. cbn in *.
  constructor.
  - rewrite fitid_ofx_txn. eexists _, _. split; [done | lia].
  - eapply Forall_impl; [exact IH |]. cbn. intros o (i & amt & -> & Hi).
    eexists _, _. split; [done | lia].
Qed.

(** The same for the IDs that the dicts of the bucket hold afterwards, when
    the bucket holds each dict once. *)
Lemma _ofx_txns_bucket_ids self d : forall bucket n (h : heap),
  NoDup bucket ->
  Forall (fun r => deref h r !! "Date" = Some d) bucket ->
  length bucket <= n ->
  Forall (fun r => exists i amt,
            deref (fst (_ofx_txns_bucket self n bucket h)) r !! "ID"
            = Some (txn_id self d i amt) /\ n - length bucket < i <= n)
    bucket.
Proof.
  induction bucket as [| r rest IH]; intros n h Hnd Hd Hn; [constructor |].
  apply NoDup_cons in Hnd as [Hr Hnd]. apply Forall_cons in Hd as [Ht Hrest]. cbn in Hn.
  pose proof (_ofx_txns_bucket_frame self rest (n - 1)
                (<[r := <["ID" := txn_id self d n (get (deref h r) "Amount" "00.00")]>
                          (deref h r)]> h) r) as Hframe.
  specialize (IH (n - 1) _ Hnd
                (dates_kept h r (txn_id self d n (get (deref h r) "Amount" "00.00"))
                   d rest Hrest) ltac:(lia)).
  cbn [_ofx_txns_bucket]. rewrite !(get_Some _ _ "UNKNOWN" _ Ht).
  destruct (_ofx_txns_bucket self (n - 1) rest _) as [h' out]. cbn [fst] in *.
  constructor.
  - assert (deref h' r = <["ID" := txn_id self d n (get (deref h r) "Amount" "00.00")]>
                           (deref h r)) as ->.
    { unfold deref at 1. rewrite Hframe by (by rewrite <- list_elem_of_In).
      by rewrite lookup_insert_eq. }
    rewrite lookup_insert_eq. eexists _, _. split; [done | cbn; lia].
  - eapply Forall_impl; [exact IH |]. cbn. intros r0 (i & amt & Hid & Hi).
    eexists _, _. split; [exact Hid | lia].
Qed.

(** X19.  The IDs that [_ofx_txns] gives to the transactions filed under
    one date are all different, whatever their amounts: as they go out with
    the rendered transactions, and, when the bucket holds each dict once, as
    the dicts hold them afterwards. *)
Theorem ofx_txns_ids_distinct self d (bucket : list ref) (h : heap) :
  Forall (fun r => deref h r !! "Date" = Some d) bucket ->
  NoDup (map fitid (snd (_ofx_txns_bucket self (length bucket) bucket h))) /\
  (NoDup bucket ->
   NoDup (map (fun r => deref (fst (_ofx_txns_bucket self (length bucket) bucket h)) r !! "ID")
            bucket)).
Proof.
  generalize (Nat.le_refl (length bucket)). generalize (length bucket) at 2 3 4 as n.
  intros n Hn Hd. split.
  - revert n h Hn Hd.
    induction bucket as [| r rest IH]; intros n h Hn Hd; cbn; [constructor |].
    apply Forall_cons in Hd as [Ht Hrest]. cbn in Hn.
    rewrite !(get_Some _ _ "UNKNOWN" _ Ht).
    pose proof (dates_kept h r (txn_id self d n (get (deref h r) "Amount" "00.00"))
                  d rest Hrest) as Hrest1.
    pose proof (_ofx_txns_bucket_fitids self d rest (n - 1) _ Hrest1 ltac:(lia)) as Hids.
    specialize (IH (n - 1) _ ltac:(lia) Hrest1).
    destruct (_ofx_txns_bucket self (n - 1) rest _) as [h' out]. cbn in *.
    constructor; [| done].
    rewrite fitid_ofx_txn. intros Hin.
    rewrite Forall_forall in Hids. apply list_elem_of_fmap in Hin as (o & Heq & Hin).
    destruct (Hids _ Hin) as (i & amt & Hid & Hi).
    rewrite Hid in Heq. injection Heq as Heq. apply strip_txn_id_index in Heq. lia.
  - intros Hnd. revert n h Hn Hd.
    induction bucket as [| r rest IH]; intros n h Hn Hd; [constructor |].
    apply Forall_cons in Hd as [Ht Hrest]. cbn in Hn.
    apply NoDup_cons in Hnd as [Hr Hnd].
    pose proof (dates_kept h r (txn_id self d n (get (deref h r) "Amount" "00.00"))
                  d rest Hrest) as Hrest1.
    pose proof (_ofx_txns_bucket_ids self d rest (n - 1) _ Hnd Hrest1 ltac:(lia)) as Hids.
    pose proof (_ofx_txns_bucket_frame self rest (n - 1)
                  (<[r := <["ID" := txn_id self d n (get (deref h r) "Amount" "00.00")]>
                            (deref h r)]> h) r) as Hframe.
    specialize (IH Hnd (n - 1) _ ltac:(lia) Hrest1).
    cbn [_ofx_txns_bucket]. rewrite !(get_Some _ _ "UNKNOWN" _ Ht).
    destruct (_ofx_txns_bucket self (n - 1) rest _) as [h' out]. cbn [fst map] in *.
    constructor; [| done].
    intros Hin. apply list_elem_of_fmap in Hin as (r0 & Heq & Hin).
    rewrite Forall_forall in Hids. destruct (Hids _ Hin) as (i & amt & Hid & Hi).
    assert (deref h' r = <["ID" := txn_id self d n (get (deref h r) "Amount" "00.00")]>
                           (deref h r)) as Hhead.
    { unfold deref at 1. rewrite Hframe by (by rewrite <- list_elem_of_In).
      by rewrite lookup_insert_eq. }
    rewrite Hhead, lookup_insert_eq, Hid in Heq.
    injection Heq as Heq. apply txn_id_index in Heq. lia.
Qed.

(** X20.  A converter as [__init__] returns it cannot render its
    transaction list: [_ofx_txns] reads a start date that was never
    assigned and raises [AttributeError]. *)
Theorem ofx_txns_after_init `{Ext : Externals}
    (iif fid org bankid accttype acctid balance : string) (curdef : option string)
    (lang : string) (dayfirst : bool) (self : IifConverter) (h : heap) :
  __init__ iif fid org bankid accttype acctid balance curdef lang dayfirst = Ok self ->
  snd (_ofx_txns self h) = Raise AttributeError.
Proof.
  unfold __init__. cbn.
  destruct (IifParser.parse iif) as [block | e]; cbn; [| done].
  destruct (_extract_txn_list block) as [txn_list | e]; cbn; [| done].
  intros Hguess. apply _guess_formats_index in Hguess as (Hix & Hsd & Hed & _).
  cbn in *. unfold _ofx_txns. rewrite Hsd.
  destruct (_ofx_txns_dates _ _ _). done.
Qed.

Lemma ofx_txns_ids_distinct_witness :
  NoDup (map fitid
           (snd (_ofx_txns_bucket (Sample.converter "CHECKING") (length [0; 1]) [0; 1]
                   {[ 0 := normalized_A; 1 := normalized_A ]}))) /\
  (NoDup [0; 1] ->
   NoDup (map (fun r =>
                 deref (fst (_ofx_txns_bucket (Sample.converter "CHECKING") (length [0; 1])
                               [0; 1] {[ 0 := normalized_A; 1 := normalized_A ]})) r !! "ID")
            [0; 1])).
Proof.
  apply (ofx_txns_ids_distinct _ "20160325").
  repeat constructor.
Defined.

Example ofx_txns_ids_rendered :
  map fitid
    (snd (_ofx_txns_bucket (Sample.converter "CHECKING") 2 [0; 1]
            {[ 0 := normalized_A; 1 := normalized_A ]}))
  = [Some "UNKNOWN-CHECKING-20160325-2--50.00"; Some "UNKNOWN-CHECKING-20160325-1--50.00"].
Proof. vm_compute. reflexivity. Qed.

Lemma ofx_txns_after_init_witness :
  snd (_ofx_txns (Sample.converter "CHECKING") ∅) = Raise AttributeError.
Proof.
  apply (ofx_txns_after_init (Ext := Sample.externals) statement_A
           "UNKNOWN" "UNKNOWN" "UNKNOWN" "CHECKING" "UNKNOWN" "UNKNOWN" None "ENG" false).
  vm_compute. reflexivity.
Defined.

(** * Further properties *)

Section More.
Context `{Ext : Externals}.

(** X21.  A transaction whose amount is "-" or " " never reaches the
    index: [_clean_txn] raises on it.  The exception is [ValueError], and
    then the loop of [_clean_txn_list] leaves the transaction out and goes on
    with the transactions after it; or it is another exception, which the
    date library raised on the date of the transaction, and then the loop
    ends with it. *)
Theorem undefined_amount_is_skipped self (h : heap) (r : ref) (t : txn) :
  h !! r = Some t ->
  undefined_amount t ->
  exists e t',
    _clean_txn self t = (Raise e, t') /\
    (e = ValueError \/
     dateutil_parse (Py.strip (get t "Date" "UNKNOWN")) (dayfirst self) = Raise e) /\
    (e = ValueError ->
     forall ix rest,
       _clean_txn_loop self ix h (r :: rest) = _clean_txn_loop self ix (<[r := t']> h) rest) /\
    (e <> ValueError ->
     forall ix rest, _clean_txn_loop self ix h (r :: rest) = Raise e).
Proof.
  intros Hr Ha. destruct (_clean_txn_undefined_amount self t Ha) as (e & t' & Hrun & He).
  exists e, t'. split; [done |]. split.
  { destruct He as [-> | He]; [by left |]. by apply _parse_date_exn in He. }
  rewrite <- (deref_Some _ _ _ Hr) in Hrun. split.
  - intros -> ix rest. by apply _clean_txn_loop_skip.
  - intros Hne ix rest. by eapply _clean_txn_loop_abort.
Qed.

Lemma digit_not_space c : Py.isdigit c = true -> Py.isspace c = false.
Proof.
  unfold Py.isdigit, Py.isspace, Py.between. generalize (Py.code c) as n. intros n.
  rewrite andb_true_iff, !Nat.leb_le. intros [? ?].
  repeat (apply orb_false_iff; split); rewrite ?andb_false_iff, ?Nat.leb_gt, ?Nat.eqb_neq; lia.
Qed.

Lemma digit_not_alpha c : Py.isdigit c = true -> Py.isalpha_char c = false.
Proof.
  unfold Py.isdigit, Py.isalpha_char, Py.between. generalize (Py.code c) as n. intros n.
  rewrite andb_true_iff, !Nat.leb_le. intros [? ?].
  repeat (apply orb_false_iff; split); rewrite ?andb_false_iff, ?Nat.leb_gt, ?Nat.eqb_neq; lia.
Qed.

Lemma rstrip_digits s : Py.all_chars Py.isdigit s = true -> Py.rstrip s = s.
Proof.
  induction s as [| c r IH]; [done |]. cbn. intros [Hc Hr]%andb_true_iff.
  rewrite (IH Hr). destruct r; [| done]. by rewrite (digit_not_space c Hc).
Qed.

Lemma strip_digits s : Py.all_chars Py.isdigit s = true -> Py.strip s = s.
Proof.
  intros Hs. unfold Py.strip.
  assert (Py.lstrip s = s) as ->.
  { destruct s as [| c r]; [done |]. cbn in *. apply andb_true_iff in Hs as [Hc _].
    by rewrite (digit_not_space c Hc). }
  by apply rstrip_digits.
Qed.

Lemma int_digits_digits s : forall acc b,
  Py.all_chars Py.isdigit s = true -> s <> EmptyString \/ b = true ->
  is_Some (Py.int_digits acc b s).
Proof.
  induction s as [| c r IH]; intros acc b Hs Hne; cbn.
  - destruct Hne as [| ->]; [done | eauto].
  - cbn in Hs. apply andb_true_iff in Hs as [Hc Hr]. rewrite Hc. apply IH; auto.
Qed.

Lemma int_digits_string s :
  Py.all_chars Py.isdigit s = true -> s <> EmptyString -> is_Some (Py.int s).
Proof.
  intros Hs Hne. unfold Py.int. rewrite (strip_digits s Hs).
  destruct s as [| c r]; [done |].
  assert (is_Some (Py.int_digits 0 false (String c r))) as Hint
    by (apply int_digits_digits; auto).
  cbn in Hs. apply andb_true_iff in Hs as [Hc _].
  destruct c as [[] [] [] [] [] [] [] []]; try discriminate Hc; exact Hint.
Qed.

(** X22.  A date of eight digits that the date library refuses with
    [ValueError] as it stands is parsed again with a slash after the second and after the fourth
    digit, and the outcome of that second attempt is the outcome of
    [_parse_date]. *)
Theorem parse_date_retries_compact_date (s : string) (dayfirst : bool) :
  String.length s = 8 ->
  Py.all_chars Py.isdigit s = true ->
  dateutil_parse s dayfirst = Raise ValueError ->
  _parse_date s dayfirst =
  parse_or_ValueError
    (Py.slice 0 2 s +:+ "/" +:+ Py.slice 2 4 s +:+ "/" +:+ Py.slice_from 4 s) dayfirst.
Proof.
  intros Hlen Hs Hnone. unfold _parse_date.
  assert (s <> EmptyString) as Hne by (intros ->; discriminate).
  destruct (String.eqb_spec s "UNKNOWN") as [-> | _]; [discriminate |]. cbn [negb].
  assert (Py.isalpha s = false) as ->.
  { destruct s as [| c r]; [done |]. cbn in *. apply andb_true_iff in Hs as [Hc _].
    by rewrite (digit_not_alpha c Hc). }
  cbn [negb]. rewrite Hnone, Hlen. cbn [Nat.eqb].
  destruct (int_digits_string s Hs Hne) as [z ->]. reflexivity.
Qed.
End More.

Lemma undefined_amount_is_skipped_witness :
  exists e (t' : txn),
    _clean_txn (Ext := Sample.externals) (Sample.converter "CHECKING")
      (<["Date" := "03/25/2016"]> (<["Amount" := "-"]> ∅)) = (Raise e, t') /\
    (e = ValueError \/
     @dateutil_parse Sample.externals
       (Py.strip (get (<["Date" := "03/25/2016"]> (<["Amount" := "-"]> ∅)) "Date" "UNKNOWN"))
       (dayfirst (Sample.converter "CHECKING")) = Raise e) /\
    (e = ValueError ->
     forall ix rest,
       _clean_txn_loop (Ext := Sample.externals) (Sample.converter "CHECKING") ix
         {[ 0 := <["Date" := "03/25/2016"]> (<["Amount" := "-"]> ∅) ]} (0 :: rest) =
       _clean_txn_loop (Ext := Sample.externals) (Sample.converter "CHECKING") ix
         (<[0 := t']> {[ 0 := <["Date" := "03/25/2016"]> (<["Amount" := "-"]> ∅) ]}) rest) /\
    (e <> ValueError ->
     forall ix rest,
       _clean_txn_loop (Ext := Sample.externals) (Sample.converter "CHECKING") ix
         {[ 0 := <["Date" := "03/25/2016"]> (<["Amount" := "-"]> ∅) ]} (0 :: rest)
       = Raise e).
Proof.
  apply (undefined_amount_is_skipped (Ext := Sample.externals)); [reflexivity |].
  left. reflexivity.
Defined.

(** The two cases on concrete statements: with a date that parses the
    transaction is skipped, with a date that overflows the pass ends. *)
Example undefined_amount_skipped :
  summary (_clean_txn_list (Ext := Sample.externals) (Sample.converter "CHECKING")
             {[ 0 := <["Date" := "03/25/2016"]> (<["Amount" := "-"]> ∅);
                1 := scenario_A ]} [0; 1])
  = Ok ([("20160325", 1)], Some "20160325", Some "20160325").
Proof. vm_compute. reflexivity. Qed.

Example undefined_amount_after_overflow :
  _clean_txn_list (Ext := Sample.externals) (Sample.converter "CHECKING")
    {[ 0 := <["Date" := "1/1/99999999999999999999"]> (<["Amount" := "-"]> ∅);
       1 := scenario_A ]} [0; 1]
  = Raise OverflowError.
Proof. vm_compute. reflexivity. Qed.

Lemma parse_date_retries_compact_date_witness :
  _parse_date (Ext := Sample.externals) "03252016" false =
  parse_or_ValueError (Ext := Sample.externals)
    (Py.slice 0 2 "03252016" +:+ "/" +:+ Py.slice 2 4 "03252016" +:+ "/"
     +:+ Py.slice_from 4 "03252016") false.
Proof.
  apply (parse_date_retries_compact_date (Ext := Sample.externals)); reflexivity.
Defined.

Example compact_date_parsed :
  _parse_date (Ext := Sample.externals) "03252016" false
  = Ok (Parsed {| year := 2016; month := 3; day := 25 |}).
Proof. vm_compute. reflexivity. Qed.

(** * Termination of the grammar's repetitions *)

Module IifParserTermination.
Import IifParser IifParserExtras.

(** An element that reads at least one character when it matches, and one
    that never gives back more text than it was given. *)
Definition consuming {A} (p : parser A) : Prop :=
  forall s a r, p s = Ok (a, r) -> String.length r < String.length s.

Definition shrinking {A} (p : parser A) : Prop :=
  forall s a r, p s = Ok (a, r) -> String.length r <= String.length s.

Lemma consuming_shrinking {A} (p : parser A) : consuming p -> shrinking p.
Proof. intros Hp s a r Hs. apply Hp in Hs. lia. Qed.

Lemma startswith_length lit : forall s,
  Py.startswith lit s = true ->
  String.length (Py.slice_from (String.length lit) s) + String.length lit = String.length s.
Proof.
  induction lit as [| c lit IH]; intros s; cbn; [lia |].
  destruct s as [| c' s]; [done |]. intros [_ Hs]%andb_true_iff. cbn.
  specialize (IH s Hs). lia.
Qed.

Lemma Literal_consuming lit : lit <> EmptyString -> consuming (Literal lit).
Proof.
  intros Hne s a r. unfold Literal. destruct (Py.startswith lit s) eqn:Hs; [| done].
  intros [= <- <-]. apply startswith_length in Hs.
  destruct lit; [done |]. cbn in *. lia.
Qed.

Lemma Suppress_consuming {A} (p : parser A) : consuming p -> consuming (Suppress p).
Proof.
  intros Hp s a r. unfold Suppress. destruct (p s) as [[a' r'] | e] eqn:Hps; [| done].
  intros [= <- <-]. by eapply Hp.
Qed.

Lemma Suppress_shrinking {A} (p : parser A) : shrinking p -> shrinking (Suppress p).
Proof.
  intros Hp s a r. unfold Suppress. destruct (p s) as [[a' r'] | e] eqn:Hps; [| done].
  intros [= <- <-]. by eapply Hp.
Qed.

Lemma And_consuming {A} (p : parser A) : consuming p -> consuming (And p).
Proof. intros Hp s a r Hs%And_Ok. by eapply Hp. Qed.

Lemma And_shrinking {A} (p : parser A) : shrinking p -> shrinking (And p).
Proof. intros Hp s a r Hs%And_Ok. by eapply Hp. Qed.

Lemma ret_shrinking {A} (a : A) : shrinking (mret a : parser A).
Proof. intros s a' r [= <- <-]. lia. Qed.

Lemma bind_shrinking {A B} (p : parser A) (k : A -> parser B) :
  shrinking p -> (forall a, shrinking (k a)) -> shrinking (p ≫= k).
Proof.
  intros Hp Hk s b r (a & r1 & H1 & H2)%bind_Ok. apply Hp in H1. apply Hk in H2. lia.
Qed.

Lemma bind_consuming {A B} (p : parser A) (k : A -> parser B) :
  consuming p -> (forall a, shrinking (k a)) -> consuming (p ≫= k).
Proof.
  intros Hp Hk s b r (a & r1 & H1 & H2)%bind_Ok. apply Hp in H1. apply Hk in H2. lia.
Qed.

Lemma repeat_element_shrinking {A} (p : parser A) :
  shrinking p -> forall fuel, shrinking (repeat_element fuel p).
Proof.
  intros Hp. induction fuel as [| fuel IH]; intros s l r; cbn.
  - intros [= <- <-]. lia.
  - destruct (p s) as [[a r1] | e] eqn:Hps.
    + destruct (repeat_element fuel p r1) as [[l1 r2] | e] eqn:Hrep; [| done].
      intros [= <- <-]. apply Hp in Hps. apply IH in Hrep. lia.
    + destruct e; intros H; simplify_eq; lia.
Qed.

Lemma ZeroOrMore_shrinking {A} (p : parser A) : shrinking p -> shrinking (ZeroOrMore p).
Proof. intros Hp s. by apply repeat_element_shrinking. Qed.

Lemma skip_blanks_length s : String.length (skip_blanks s) <= String.length s.
Proof. induction s as [| c r IH]; cbn; [lia |]. destruct (_ || _); cbn; lia. Qed.

Lemma White_consuming : consuming White.
Proof.
  intros s a r. unfold White. destruct s as [| c s]; [done |].
  destruct (_ || _); [| done]. intros [= <- <-]. pose proof (skip_blanks_length s). cbn. lia.
Qed.

Lemma LineEnd_shrinking : shrinking LineEnd.
Proof.
  intros s a r. unfold LineEnd. destruct s as [| c s]; [intros [= <- <-]; lia |].
  destruct (Ascii.eqb c LF); [| done]. intros [= <- <-]. cbn. lia.
Qed.

Lemma field_run_length s : String.length (snd (field_run s)) <= String.length s.
Proof.
  induction s as [| c r IH]; cbn; [lia |].
  destruct (_ || _); cbn; [lia |]. destruct (field_run r). cbn in *. lia.
Qed.

Lemma item_shrinking : shrinking item.
Proof.
  intros s a r. unfold item. pose proof (field_run_length s) as Hlen.
  destruct (field_run s) as [tok rest]. cbn in Hlen.
  destruct (dropQuotes tok) as [[tok' |] | e]; intros H; by simplify_eq.
Qed.

Lemma sep_consuming : consuming sep.
Proof. apply Suppress_consuming, Literal_consuming. done. Qed.

Lemma eol_shrinking : shrinking eol.
Proof.
  apply Suppress_shrinking, And_shrinking, bind_shrinking; [| intros _; apply LineEnd_shrinking].
  apply ZeroOrMore_shrinking, consuming_shrinking, White_consuming.
Qed.

Lemma next_item_consuming : consuming (And (sep;; item)).
Proof. apply And_consuming, bind_consuming; [apply sep_consuming | intros _; apply item_shrinking]. Qed.

Lemma delimitedList_item_shrinking : shrinking (delimitedList item sep).
Proof.
  apply And_shrinking, bind_shrinking; [apply item_shrinking | intros a].
  apply bind_shrinking; [| intros l; apply ret_shrinking].
  apply ZeroOrMore_shrinking, consuming_shrinking, next_item_consuming.
Qed.

Lemma spl_entry_consuming : consuming spl_entry.
Proof.
  apply And_consuming, bind_consuming;
    [apply Suppress_consuming, Literal_consuming; done | intros _].
  apply bind_shrinking; [apply consuming_shrinking, sep_consuming | intros _].
  apply bind_shrinking; [apply delimitedList_item_shrinking | intros l].
  apply bind_shrinking; [apply eol_shrinking | intros _]. apply ret_shrinking.
Qed.

Lemma trns_entry_consuming : consuming trns_entry.
Proof.
  apply And_consuming, bind_consuming;
    [apply Suppress_consuming, Literal_consuming; done | intros _].
  apply bind_shrinking; [apply consuming_shrinking, sep_consuming | intros _].
  apply bind_shrinking; [apply delimitedList_item_shrinking | intros l].
  apply bind_shrinking; [apply eol_shrinking | intros _].
  apply bind_shrinking; [| intros spl].
  { apply bind_shrinking; [apply consuming_shrinking, spl_entry_consuming | intros a].
    apply bind_shrinking; [| intros l'; apply ret_shrinking].
    apply ZeroOrMore_shrinking, consuming_shrinking, spl_entry_consuming. }
  apply bind_shrinking;
    [apply Suppress_shrinking, consuming_shrinking, Literal_consuming; done | intros _].
  apply bind_shrinking; [apply eol_shrinking | intros _]. apply ret_shrinking.
Qed.

(** For an element that reads at least one character, the rounds are never
    used up: any number of rounds above the length of the text gives the
    same result. *)
Lemma repeat_element_fuel {A} (p : parser A) :
  consuming p ->
  forall fuel fuel' s,
    String.length s < fuel -> String.length s < fuel' ->
    repeat_element fuel p s = repeat_element fuel' p s.
Proof.
  intros Hp. induction fuel as [| fuel IH]; intros fuel' s Hf Hf'; [lia |].
  destruct fuel' as [| fuel']; [lia |]. rewrite !IifParserFacts.repeat_element_S.
  destruct (p s) as [[a r] | e] eqn:Hps; [| done].
  apply Hp in Hps. by rewrite (IH fuel' r) by lia.
Qed.

(** X23.  The repetitions of the grammar end because their element fails
    to match, not because a bound on the rounds is reached: the blocks, the
    split lines of a block, the fields of a line and the blanks before a line
    end each read at least one character per round, so rounds beyond the
    length of the text change nothing. *)
Theorem repetitions_end_by_failure (more : nat) (s : string) :
  ZeroOrMore trns_entry s = repeat_element (S (String.length s) + more) trns_entry s /\
  ZeroOrMore spl_entry s = repeat_element (S (String.length s) + more) spl_entry s /\
  ZeroOrMore (And (sep;; item)) s
  = repeat_element (S (String.length s) + more) (And (sep;; item)) s /\
  ZeroOrMore White s = repeat_element (S (String.length s) + more) White s.
Proof.
  unfold ZeroOrMore. repeat split; apply repeat_element_fuel; try lia.
  - apply trns_entry_consuming.
  - apply spl_entry_consuming.
  - apply next_item_consuming.
  - apply White_consuming.
Qed.
End IifParserTermination.

(** * Empty fields *)

Module IifParserEmptyField.
Import IifParser IifParserFacts IifParserExtras IifParserTermination.

(** The text after a field: its end, or a tab, CR or LF. *)
Definition at_field_end (s : string) : Prop :=
  match s with
  | EmptyString => True
  | String c _ => separator c = true
  end.

Lemma item_raises s e : item s = Raise e -> at_empty_field s /\ e = IndexError.
Proof.
  unfold item, at_empty_field. destruct (field_run s) as [tok rest]. cbn.
  destruct tok as [| c r]; [by intros [= <-] |].
  unfold dropQuotes.
  assert (exists l, Py.last_char (String c r) = Some l) as [l ->].
  { clear. revert c. induction r as [| a r IH]; intros c; [by exists c |].
    destruct (IH a) as [l Hl]. exists l.
    by change (Py.last_char (String c (String a r))) with (Py.last_char (String a r)). }
  destruct (_ || _); discriminate.
Qed.

Lemma item_rest s v r : item s = Ok (v, r) -> at_field_end r.
Proof.
  unfold item. pose proof (field_run_rest s) as Hrest.
  destruct (field_run s) as [tok rest]. cbn in Hrest.
  destruct (dropQuotes tok) as [[tok' |] | e]; intros H; by simplify_eq.
Qed.

Lemma next_item_tab s : (sep;; item) (String TAB s) = item s.
Proof. reflexivity. Qed.

(** Where the fields after the first one end: before a tab that is followed
    by an empty field, or where no tab follows. *)
Lemma next_items_stop : forall fuel s l r,
  String.length s < fuel -> at_field_end s ->
  repeat_element fuel (And (sep;; item)) s = Ok (l, r) ->
  at_field_end r /\ forall s', r = String TAB s' -> at_empty_field s'.
Proof.
  induction fuel as [| fuel IH]; intros s l r Hfuel Hs; [lia |].
  rewrite repeat_element_S.
  destruct (And (sep;; item) s) as [[a r1] | e] eqn:Hp.
  - pose proof (next_item_consuming _ _ _ Hp) as Hlen.
    assert (at_field_end r1) as Hr1.
    { apply And_Ok, bind_Ok in Hp as (? & ? & _ & Hitem). by eapply item_rest. }
    destruct (repeat_element fuel _ r1) as [[l1 r2] | e] eqn:Hrep; [| done].
    intros [= <- <-]. eapply IH; [| exact Hr1 | exact Hrep]. lia.
  - assert (forall s', s = String TAB s' -> at_empty_field s') as Hstop.
    { intros s' ->. unfold And in Hp. rewrite next_item_tab in Hp.
      destruct (item s') as [[v r'] | e'] eqn:Hitem; [done |].
      by apply item_raises in Hitem as [? _]. }
    destruct e; intros H; simplify_eq; auto.
Qed.

Lemma delimitedList_item_stop s0 l r :
  delimitedList item sep s0 = Ok (l, r) ->
  match r with
  | EmptyString => True
  | String c s => c = CR \/ c = LF \/ (c = TAB /\ at_empty_field s)
  end.
Proof.
  intros Hl. unfold delimitedList in Hl. apply And_Ok in Hl.
  apply bind_Ok in Hl as (a & r1 & Ha & Hl).
  apply bind_Ok in Hl as (l1 & r2 & Hl1 & Hl). injection Hl as <- <-.
  apply item_rest in Ha.
  apply next_items_stop in Hl1 as [Hend Hstop]; [| lia | done].
  destruct r2 as [| c s]; [done |]. cbn in Hend. unfold separator in Hend.
  destruct (Ascii.eqb_spec c TAB) as [-> | _]; [right; right; auto |].
  destruct (Ascii.eqb_spec c CR) as [-> | _]; [by left |].
  destruct (Ascii.eqb_spec c LF) as [-> | _]; [right; by left | done].
Qed.

Lemma White_skip_blanks s : White (skip_blanks s) = Raise ParseException.
Proof.
  induction s as [| c r IH]; [done |]. cbn.
  destruct (_ || _) eqn:Hc; [done |]. cbn. by rewrite Hc.
Qed.

(** The end of a line: blanks and tabs, then a newline or the end of the
    text. *)
Lemma eol_skip_blanks s : eol s = LineEnd (skip_blanks s).
Proof.
  assert (exists l, ZeroOrMore White s = Ok (l, skip_blanks s)) as [l Hl].
  { unfold ZeroOrMore. rewrite repeat_element_S.
    destruct s as [| c r]; [by exists [] |]. cbn [White skip_blanks].
    destruct (_ || _); [| by exists []].
    destruct (String.length (String c r)) eqn:Hlen; [done |].
    rewrite repeat_element_S, White_skip_blanks. eauto. }
  unfold eol, Suppress, And, mbind, parser_bind. rewrite Hl.
  unfold LineEnd. repeat case_match; simplify_eq; done.
Qed.

(** The line of a parent record whose field list is [trn] and ends at the
    text [r]. *)
Lemma trns_entry_line s0 trn r :
  delimitedList item sep s0 = Ok (trn, r) ->
  trns_entry ("TRNS" +:+ String TAB s0) =
  And (eol;; spl ← OneOrMore spl_entry;
       Suppress (Literal "ENDTRNS");; eol;; mret {| TRN := trn; SPL := spl |}) r.
Proof.
  intros Hl. unfold trns_entry, And.
  change ((Suppress (Literal "TRNS");; sep;; trn ← delimitedList item sep; eol;;
           spl ← OneOrMore spl_entry; Suppress (Literal "ENDTRNS");; eol;;
           mret {| TRN := trn; SPL := spl |}) ("TRNS" +:+ String TAB s0))
    with ((trn ← delimitedList item sep; eol;;
           spl ← OneOrMore spl_entry; Suppress (Literal "ENDTRNS");; eol;;
           mret {| TRN := trn; SPL := spl |}) s0).
  unfold mbind at 1, parser_bind at 1. by rewrite Hl.
Qed.

Lemma spl_entry_line s0 l r :
  delimitedList item sep s0 = Ok (l, r) ->
  spl_entry ("SPL" +:+ String TAB s0) = And (eol;; mret l) r.
Proof.
  intros Hl. unfold spl_entry, And.
  change ((Suppress (Literal "SPL");; sep;; l ← delimitedList item sep; eol;; mret l)
            ("SPL" +:+ String TAB s0))
    with ((l ← delimitedList item sep; eol;; mret l) s0).
  unfold mbind at 1, parser_bind at 1. by rewrite Hl.
Qed.

(** C10, as the code has it.  An empty field in a record does not make the
    parse raise.  On an empty field the quote-stripping action raises
    [IndexError], and the grammar takes that as a failed match of the field:
    a field list does not match at an empty first field, and ends before a
    tab that is followed by an empty field, so that no token stands for an
    empty field; a field list ends at the end of the text, at a CR or LF, or
    before such a tab, and nowhere else.  The end of a line matches exactly
    when blanks and tabs alone stand before the newline or the end of the
    text.  So a [TRNS] record whose field list ends before an empty field
    matches, if at all, with the fields before the empty one, and neither it
    nor an [SPL] line matches when anything but blanks, tabs and the newline
    comes after.  A record that does not match ends the repetition of
    records: nothing from there on is in the result.  Once the header section
    has matched, [parse] returns whatever the records contain. *)
Theorem empty_field_is_a_failed_match :
  (forall s, at_empty_field s ->
     dropQuotes EmptyString = Raise IndexError /\
     item s = Raise IndexError /\
     delimitedList item sep s = Raise ParseException /\
     ZeroOrMore (And (sep;; item)) (String TAB s) = Ok ([], String TAB s)) /\
  (forall s0 l r, delimitedList item sep s0 = Ok (l, r) ->
     match r with
     | EmptyString => True
     | String c s => c = CR \/ c = LF \/ (c = TAB /\ at_empty_field s)
     end) /\
  (forall s, eol s = LineEnd (skip_blanks s)) /\
  (forall s0 trn s, delimitedList item sep s0 = Ok (trn, String TAB s) ->
     (forall rec r, trns_entry ("TRNS" +:+ String TAB s0) = Ok (rec, r) -> TRN rec = trn) /\
     (forall c r, skip_blanks s = String c r -> c <> LF ->
        trns_entry ("TRNS" +:+ String TAB s0) = Raise ParseException /\
        spl_entry ("SPL" +:+ String TAB s0) = Raise ParseException)) /\
  (forall s e, trns_entry s = Raise e -> ZeroOrMore trns_entry s = Ok ([], s)) /\
  (forall iif columns rest,
     trns_header iif = Ok (columns, rest) -> exists block, parse iif = Ok block).
Proof.
  split; [| split; [| split; [| split; [| split]]]].
  - intros s Hs. split; [reflexivity |]. split; [by apply item_at_empty_field |].
    split.
    { unfold delimitedList, And, mbind, parser_bind. by rewrite (item_at_empty_field s Hs). }
    assert (And (sep;; item) (String TAB s) = Raise ParseException) as Hstep.
    { unfold And. by rewrite next_item_tab, (item_at_empty_field s Hs). }
    unfold ZeroOrMore. rewrite repeat_element_S. by rewrite Hstep.
  - apply delimitedList_item_stop.
  - apply eol_skip_blanks.
  - intros s0 trn s Hl. split.
    + intros rec r. rewrite (trns_entry_line _ _ _ Hl). intros Hrec%And_Ok.
      apply bind_Ok in Hrec as (? & ? & _ & Hrec).
      apply bind_Ok in Hrec as (spl & ? & _ & Hrec).
      apply bind_Ok in Hrec as (? & ? & _ & Hrec).
      apply bind_Ok in Hrec as (? & ? & _ & Hrec).
      by injection Hrec as <- <-.
    + intros c r Hc Hne.
      assert (eol (String TAB s) = Raise ParseException) as Heol.
      { rewrite eol_skip_blanks. cbn [skip_blanks]. rewrite Hc. cbn.
        by destruct (Ascii.eqb_spec c LF). }
      rewrite (trns_entry_line _ _ _ Hl), (spl_entry_line _ _ _ Hl).
      unfold And, mbind, parser_bind. by rewrite Heol.
  - intros s e He. unfold ZeroOrMore. rewrite repeat_element_S, He.
    by destruct (trns_entry_soft _ _ He) as [-> | ->].
  - intros iif [tf sf] rest Hheader.
    destruct (ZeroOrMore_returns trns_entry trns_entry_soft rest) as (l & r & Hl).
    unfold parse, trns_entries, And. cbn.
    unfold mbind, parser_bind. rewrite Hheader, Hl. cbn. eauto.
Qed.

End IifParserEmptyField.

Lemma empty_field_is_a_failed_match_witness :
  IifParser.item (String IifParser.TAB "Bakery") = Raise IndexError /\
  (IifParser.trns_entry
     ("TRNS" +:+ String IifParser.TAB
        ("03/24/2016" +:+ String IifParser.TAB (String IifParser.TAB "Bakery")))
   = Raise ParseException /\
   IifParser.spl_entry
     ("SPL" +:+ String IifParser.TAB
        ("03/24/2016" +:+ String IifParser.TAB (String IifParser.TAB "Bakery")))
   = Raise ParseException) /\
  exists block, IifParser.parse statement_with_empty_field = Ok block.
Proof.
  pose proof IifParserEmptyField.empty_field_is_a_failed_match
    as (Hfield & _ & _ & Hline & _ & Hparse).
  split; [| split].
  - apply Hfield. reflexivity.
  - assert (IifParser.delimitedList IifParser.item IifParser.sep
              ("03/24/2016" +:+ String IifParser.TAB (String IifParser.TAB "Bakery"))
            = Ok (["03/24/2016"], String IifParser.TAB (String IifParser.TAB "Bakery")))
      as Hl by (vm_compute; reflexivity).
    destruct (Hline _ _ _ Hl) as [_ Hfail].
    apply (Hfail "B"%char "akery"); [reflexivity | discriminate].
  - apply (Hparse statement_with_empty_field (["DATE"; "AMOUNT"; "MEMO"], ["DATE"; "AMOUNT"])
             (Py.slice_from (String.length header) statement_with_empty_field)).
    vm_compute. reflexivity.
Defined.

(** A field that is empty between quotes is another matter: the action
    strips the quotes and the value of the field is the empty string. *)
Example quoted_empty_field :
  IifParser.item
    (String IifParser.DQUOTE (String IifParser.DQUOTE (String IifParser.TAB "Grocery")))
  = Ok (EmptyString, String IifParser.TAB "Grocery").
Proof. reflexivity. Qed.

(** C10, as stated, fails: a statement with an empty field parses without an
    exception.  With a value after the empty field, the records from that one
    on are left out; an empty last field is left out of its record; a record
    with nothing but empty fields after its first value is kept with that
    value, and so is the record after it. *)
Lemma empty_field_does_not_raise :
  IifParser.parse statement_with_empty_field
  = Ok {| IifParser.TRNS_FLDS := ["DATE"; "AMOUNT"; "MEMO"];
          IifParser.SPL_FLDS := ["DATE"; "AMOUNT"];
          IifParser.TRNS := [] |} /\
  IifParser.parse statement_with_empty_last_field
  = Ok {| IifParser.TRNS_FLDS := ["DATE"; "AMOUNT"; "MEMO"];
          IifParser.SPL_FLDS := ["DATE"; "AMOUNT"];
          IifParser.TRNS :=
            [{| IifParser.TRN := ["03/25/2016"; "-50.00"];
                IifParser.SPL := [["03/25/2016"; "50.00"]] |}] |} /\
  IifParser.parse statement_with_blank_tail
  = Ok {| IifParser.TRNS_FLDS := ["DATE"; "AMOUNT"; "MEMO"];
          IifParser.SPL_FLDS := ["DATE"; "AMOUNT"];
          IifParser.TRNS :=
            [{| IifParser.TRN := ["03/24/2016"];
                IifParser.SPL := [["03/24/2016"; "7.00"]] |};
             {| IifParser.TRN := ["03/25/2016"; "-50.00"; "Grocery"];
                IifParser.SPL := [["03/25/2016"; "50.00"]] |}] |}.
Proof. repeat split; vm_compute; reflexivity. Qed.
